(** * labwc tablet input: geometry transform and event handlers

    A shallow embedding of labwc's tablet input source (the file that
    implements [input/tablet.h]): the tool classifier, the active-area and rotation transforms, the four event
    handlers and the destroy handler, followed by the properties of the
    specification that concern them.

    The C code computes on [double].  The program text is embedded once,
    over an interface [Double] of the operations it uses, and read at two
    instances:
    - [binary64]: IEEE 754 binary64 with round-to-nearest-even (Rocq's
      primitive floats), which is what the compiled program computes;
    - [exact]: the rationals, i.e. the same program text with every
      operation exact, which is the reading in which the specification
      writes its formulas. *)

From Stdlib Require Import Bool ZArith QArith Qfield Lqa Lia List Floats.
Import ListNotations.

Set Warnings "-inexact-float".

(** ** The arithmetic of C doubles *)

Declare Scope double_scope.
Delimit Scope double_scope with D.

Class Double (F : Type) : Type := {
  dzero : F;                    (* the literal 0.0 *)
  done : F;                     (* the literal 1 / 1.0 *)
  dadd : F -> F -> F;           (* a + b *)
  dsub : F -> F -> F;           (* a - b *)
  dmul : F -> F -> F;           (* a * b *)
  ddiv : F -> F -> F;           (* a / b *)
  dle : F -> F -> bool;         (* a <= b *)
  dnot : F -> bool              (* !a, that is a == 0.0 *)
}.

Infix "+" := dadd : double_scope.
Infix "-" := dsub : double_scope.
Infix "*" := dmul : double_scope.
Infix "/" := ddiv : double_scope.
Infix "<=?" := dle : double_scope.
Notation "! a" := (dnot a) (at level 35, right associativity) : double_scope.

(** What the machine computes. [PrimFloat.eqb] is IEEE equality, so
    [!a] holds for both signed zeros and fails for NaN, as in C. *)
#[export] Instance binary64 : Double float := {|
  dzero := 0%float;
  done := 1%float;
  dadd := PrimFloat.add;
  dsub := PrimFloat.sub;
  dmul := PrimFloat.mul;
  ddiv := PrimFloat.div;
  dle := PrimFloat.leb;
  dnot := fun a => PrimFloat.eqb a 0%float
|}.

(** The same operations without rounding: no infinities or NaN, and
    [a / 0] is [0]. A statement at this instance describes the formulas of
    the program; the running program agrees with it up to the rounding of
    binary64, and where a property is stated at this instance the
    deviation of binary64 is proved beside it. *)
#[export] Instance exact : Double Q := {|
  dzero := 0%Q;
  done := 1%Q;
  dadd := Qplus;
  dsub := Qminus;
  dmul := Qmult;
  ddiv := Qdiv;
  dle := Qle_bool;
  dnot := fun a => Qeq_bool a 0%Q
|}.

(** ** Constants of the wlroots and Linux headers *)

(** [enum wlr_tablet_tool_type]; a tool's type tag is a C [int]. *)
Definition WLR_TABLET_TOOL_TYPE_PEN : Z := 1.
Definition WLR_TABLET_TOOL_TYPE_ERASER : Z := 2.
Definition WLR_TABLET_TOOL_TYPE_BRUSH : Z := 3.
Definition WLR_TABLET_TOOL_TYPE_PENCIL : Z := 4.
Definition WLR_TABLET_TOOL_TYPE_AIRBRUSH : Z := 5.
Definition WLR_TABLET_TOOL_TYPE_MOUSE : Z := 6.
Definition WLR_TABLET_TOOL_TYPE_LENS : Z := 7.
Definition WLR_TABLET_TOOL_TYPE_TOTEM : Z := 8.

(** [enum wlr_tablet_tool_axes], bits of [updated_axes]. *)
Definition WLR_TABLET_TOOL_AXIS_X : Z := Z.shiftl 1 0.
Definition WLR_TABLET_TOOL_AXIS_Y : Z := Z.shiftl 1 1.

(** [linux/input-event-codes.h]. *)
Definition BTN_TOOL_PEN : Z := 0x140.

Inductive wlr_tablet_tool_proximity_state : Set :=
  | WLR_TABLET_TOOL_PROXIMITY_OUT
  | WLR_TABLET_TOOL_PROXIMITY_IN.

Inductive wlr_tablet_tool_tip_state : Set :=
  | WLR_TABLET_TOOL_TIP_UP
  | WLR_TABLET_TOOL_TIP_DOWN.

Inductive wlr_button_state : Set :=
  | WLR_BUTTON_RELEASED
  | WLR_BUTTON_PRESSED.

(** [enum rotation] of [config/rcxml.h]. *)
Inductive rotation : Set :=
  | LAB_ROTATE_NONE
  | LAB_ROTATE_90
  | LAB_ROTATE_180
  | LAB_ROTATE_270.

(** ** Tool classifier *)

Definition tool_supports_absolute_motion (tool_type : Z) : bool :=
  if (tool_type =? WLR_TABLET_TOOL_TYPE_MOUSE)%Z then false
  else if (tool_type =? WLR_TABLET_TOOL_TYPE_LENS)%Z then false
  else true.

(** ** Geometry transform *)

Section Geometry.
Context {F : Type} `{Double F}.
Local Open Scope double_scope.

(** [struct wlr_fbox]. *)
Record wlr_fbox : Type := mk_fbox {
  fbox_x : F;
  fbox_y : F;
  fbox_width : F;
  fbox_height : F
}.

(** The pointers [x] and [y] are passed in and out as a pair; [box] is
    passed by value, so its resolved width and height are local. *)
Definition adjust_for_tablet_area (tablet_width tablet_height : F)
    (box : wlr_fbox) (xy : F * F) : F * F :=
  let (x, y) := xy in
  if (! fbox_x box && ! fbox_y box && ! fbox_width box && ! fbox_height box)
     || ! tablet_width || ! tablet_height
  then (x, y)
  else
    let box_width :=
      if ! fbox_width box then tablet_width - fbox_x box else fbox_width box in
    let box_height :=
      if ! fbox_height box then tablet_height - fbox_y box else fbox_height box in
    let x :=
      if fbox_x box + box_width <=? tablet_width then
        let max_x := done in
        let width_offset := max_x * fbox_x box / tablet_width in
        (x - width_offset) * tablet_width / box_width
      else x in
    let y :=
      if fbox_y box + box_height <=? tablet_height then
        let max_y := done in
        let height_offset := max_y * fbox_y box / tablet_height in
        (y - height_offset) * tablet_height / box_height
      else y in
    (x, y).

(** Names for the parts of [adjust_for_tablet_area], used to state its
    properties: the early-return test, the size after the zero value is
    resolved, the overflow guard and the rescaling of one axis. *)
Definition area_disabled (tablet_width tablet_height : F) (box : wlr_fbox) : bool :=
  (! fbox_x box && ! fbox_y box && ! fbox_width box && ! fbox_height box)
  || ! tablet_width || ! tablet_height.

Definition resolved_size (tablet_size offset size : F) : F :=
  if ! size then tablet_size - offset else size.

Definition fits (tablet_size offset size : F) : bool :=
  offset + size <=? tablet_size.

Definition rescale (tablet_size offset size v : F) : F :=
  (v - done * offset / tablet_size) * tablet_size / size.

Definition adjust_for_rotation (r : rotation) (xy : F * F) : F * F :=
  let (x, y) := xy in
  match r with
  | LAB_ROTATE_NONE => (x, y)
  | LAB_ROTATE_90 => let tmp := x in (done - y, tmp)
  | LAB_ROTATE_180 => (done - x, done - y)
  | LAB_ROTATE_270 => let tmp := x in (y, done - tmp)
  end.

End Geometry.

Arguments wlr_fbox F : clear implicits.
Arguments mk_fbox {F} _ _ _ _.

(** ** Device record, events and effects *)

(** Objects that the handlers only pass on are identified by address. *)
Definition seat : Set := Z.
Definition wlr_input_device : Set := Z.

(** The fields of [tablet->handlers]. *)
Inductive handler : Set :=
  | h_axis
  | h_proximity
  | h_tip
  | h_button
  | h_destroy.

(** [&tablet->handlers.<name>] of the record that belongs to a device. *)
Definition listener : Set := (wlr_input_device * handler)%type.

Definition handler_eqb (a b : handler) : bool :=
  match a, b with
  | h_axis, h_axis | h_proximity, h_proximity | h_tip, h_tip
  | h_button, h_button | h_destroy, h_destroy => true
  | _, _ => false
  end.

Definition listener_eqb (a b : listener) : bool :=
  (fst a =? fst b)%Z && handler_eqb (snd a) (snd b).

Inductive log_message : Set :=
  | log_ignoring_tool          (* "ignoring not supporting tablet tool" *)
  | log_setting_up             (* "setting up tablet" *)
  | log_dimensions.            (* "tablet dimensions: %.2fmm x %.2fmm" *)

Section Handlers.
Context {F : Type} `{Double F}.

(** The part of [struct wlr_tablet] that is read. *)
Record wlr_tablet : Type := mk_wlr_tablet {
  base : wlr_input_device;
  width_mm : F;
  height_mm : F
}.

(** [struct drawing_tablet] without its listeners, whose links live in
    the signal lists of [server] below. *)
Record drawing_tablet : Type := mk_drawing_tablet {
  dt_seat : seat;
  dt_tablet : wlr_tablet;
  dt_x : F;
  dt_y : F
}.

(** [rc.tablet], read afresh by every axis event. *)
Record tablet_config : Type := mk_tablet_config {
  rc_box : wlr_fbox F;
  rc_rotation : rotation
}.

Record wlr_tablet_tool_axis_event : Type := mk_axis_event {
  axis_tool_type : Z;
  updated_axes : Z;
  axis_x : F;
  axis_y : F;
  axis_time_msec : Z
}.

Record wlr_tablet_tool_proximity_event : Type := mk_proximity_event {
  proximity_tool_type : Z;
  proximity_state : wlr_tablet_tool_proximity_state
}.

Record wlr_tablet_tool_tip_event : Type := mk_tip_event {
  tip_state : wlr_tablet_tool_tip_state;
  tip_time_msec : Z
}.

Record wlr_tablet_tool_button_event : Type := mk_button_event {
  button_code : Z;
  button_state : wlr_button_state;
  button_time_msec : Z
}.

(** Calls that leave this file, in the order they are made; the handlers
    of this file that read or write the device record take it and return
    it. [notify] records that a listener's callback is entered. *)
Inductive effect : Type :=
  | cursor_emulate_move_absolute
      (s : seat) (dev : wlr_input_device) (x y : F) (time_msec : Z)
  | cursor_emulate_button
      (s : seat) (button : Z) (state : wlr_button_state) (time_msec : Z)
  | wlr_log (msg : log_message)
  | wl_list_remove (l : listener)
  | free (dev : wlr_input_device)
  | notify (l : listener).

(** The button-mapping resolver of [config/tablet.c]: a raw code to an
    emulated button code, [0] when there is no mapping. *)
Variable tablet_get_mapped_button : Z -> Z.

Definition handle_proximity (ev : wlr_tablet_tool_proximity_event) : list effect :=
  if negb (tool_supports_absolute_motion (proximity_tool_type ev)) then
    match proximity_state ev with
    | WLR_TABLET_TOOL_PROXIMITY_IN => [wlr_log log_ignoring_tool]
    | WLR_TABLET_TOOL_PROXIMITY_OUT => []
    end
  else [].

Definition handle_axis (rc : tablet_config) (tablet : drawing_tablet)
    (ev : wlr_tablet_tool_axis_event) : drawing_tablet * list effect :=
  if negb (tool_supports_absolute_motion (axis_tool_type ev)) then (tablet, [])
  else if negb (Z.land (updated_axes ev)
                  (Z.lor WLR_TABLET_TOOL_AXIS_X WLR_TABLET_TOOL_AXIS_Y) =? 0)%Z
  then
    let tablet :=
      if negb (Z.land (updated_axes ev) WLR_TABLET_TOOL_AXIS_X =? 0)%Z
      then mk_drawing_tablet (dt_seat tablet) (dt_tablet tablet)
             (axis_x ev) (dt_y tablet)
      else tablet in
    let tablet :=
      if negb (Z.land (updated_axes ev) WLR_TABLET_TOOL_AXIS_Y =? 0)%Z
      then mk_drawing_tablet (dt_seat tablet) (dt_tablet tablet)
             (dt_x tablet) (axis_y ev)
      else tablet in
    let xy := (dt_x tablet, dt_y tablet) in
    let xy := adjust_for_tablet_area (width_mm (dt_tablet tablet))
                (height_mm (dt_tablet tablet)) (rc_box rc) xy in
    let xy := adjust_for_rotation (rc_rotation rc) xy in
    (tablet,
     [cursor_emulate_move_absolute (dt_seat tablet) (base (dt_tablet tablet))
        (fst xy) (snd xy) (axis_time_msec ev)])
  else (tablet, []).

Definition handle_tip (tablet : drawing_tablet)
    (ev : wlr_tablet_tool_tip_event) : list effect :=
  let button := tablet_get_mapped_button BTN_TOOL_PEN in
  if (button =? 0)%Z then []
  else
    [cursor_emulate_button (dt_seat tablet) button
       (match tip_state ev with
        | WLR_TABLET_TOOL_TIP_DOWN => WLR_BUTTON_PRESSED
        | WLR_TABLET_TOOL_TIP_UP => WLR_BUTTON_RELEASED
        end)
       (tip_time_msec ev)].

Definition handle_button (tablet : drawing_tablet)
    (ev : wlr_tablet_tool_button_event) : list effect :=
  let button := tablet_get_mapped_button (button_code ev) in
  if (button =? 0)%Z then []
  else
    [cursor_emulate_button (dt_seat tablet) button
       (button_state ev) (button_time_msec ev)].

End Handlers.

Arguments wlr_tablet F : clear implicits.
Arguments drawing_tablet F : clear implicits.
Arguments tablet_config F : clear implicits.
Arguments wlr_tablet_tool_axis_event F : clear implicits.
Arguments effect F : clear implicits.

(** ** Listeners and the life of a device record

    [wl_signal_add], [wl_list_remove] and signal emission belong to
    libwayland.  A listener is a field of the record of its device, so it
    is linked into at most one signal list at a time; [linked] is the set
    of listeners that are linked now.  Unlinking a listener that is not
    linked, linking one twice, and using or releasing a record that is not
    allocated are undefined in C: a computation that does so has no
    result ([None]). *)

Section Lifecycle.
Context {F : Type} `{Double F}.
Variable tablet_get_mapped_button : Z -> Z.

Record server : Type := mk_server {
  records : list (wlr_input_device * drawing_tablet F);
  linked : list listener
}.

(** A computation on the server state that logs its effects. *)
Definition M (A : Type) : Type :=
  server -> option (A * server * list (effect F)).

Definition ret {A : Type} (a : A) : M A := fun s => Some (a, s, []).

Definition bind {A B : Type} (m : M A) (k : A -> M B) : M B := fun s =>
  match m s with
  | None => None
  | Some (a, s1, t1) =>
      match k a s1 with
      | None => None
      | Some (b, s2, t2) => Some (b, s2, t1 ++ t2)
      end
  end.

Notation "m1 ;; m2" := (bind m1 (fun _ => m2))
  (at level 61, right associativity).
Notation "x <- m1 ;; m2" := (bind m1 (fun x => m2))
  (at level 61, m1 at next level, right associativity).

Definition emit (t : list (effect F)) : M unit := fun s => Some (tt, s, t).

Fixpoint lookup_record (dev : wlr_input_device)
    (rs : list (wlr_input_device * drawing_tablet F))
    : option (drawing_tablet F) :=
  match rs with
  | [] => None
  | (d, t) :: rs' => if (d =? dev)%Z then Some t else lookup_record dev rs'
  end.

Fixpoint delete_record (dev : wlr_input_device)
    (rs : list (wlr_input_device * drawing_tablet F))
    : list (wlr_input_device * drawing_tablet F) :=
  match rs with
  | [] => []
  | (d, t) :: rs' =>
      if (d =? dev)%Z then delete_record dev rs'
      else (d, t) :: delete_record dev rs'
  end.

Definition is_linked (l : listener) (s : server) : bool :=
  existsb (listener_eqb l) (linked s).

Definition unlink (l : listener) (ls : list listener) : list listener :=
  filter (fun l' => negb (listener_eqb l l')) ls.

(** [ev->tablet->data], or the [wl_container_of] of a listener. *)
Definition get_record (dev : wlr_input_device) : M (drawing_tablet F) := fun s =>
  match lookup_record dev (records s) with
  | Some t => Some (t, s, [])
  | None => None
  end.

Definition set_record (dev : wlr_input_device) (t : drawing_tablet F) : M unit :=
  fun s =>
    Some (tt, mk_server ((dev, t) :: delete_record dev (records s)) (linked s), []).

Definition do_wl_signal_add (l : listener) : M unit := fun s =>
  if is_linked l s then None
  else Some (tt, mk_server (records s) (l :: linked s), []).

Definition do_wl_list_remove (l : listener) : M unit := fun s =>
  if is_linked l s
  then Some (tt, mk_server (records s) (unlink l (linked s)), [wl_list_remove l])
  else None.

Definition do_free (dev : wlr_input_device) : M unit := fun s =>
  match lookup_record dev (records s) with
  | Some _ => Some (tt, mk_server (delete_record dev (records s)) (linked s), [free dev])
  | None => None
  end.

(** Modelled from the spec: [CONNECT_SIGNAL] of [common/macros.h] is not
    among the sources; it subscribes the named handler of the record to
    the signal of the same name. *)
Definition CONNECT_SIGNAL (dev : wlr_input_device) (name : handler) : M unit :=
  do_wl_signal_add (dev, name).

Definition handle_destroy (dev : wlr_input_device) : M unit :=
  do_wl_list_remove (dev, h_tip) ;;
  do_wl_list_remove (dev, h_button) ;;
  do_wl_list_remove (dev, h_proximity) ;;
  do_wl_list_remove (dev, h_axis) ;;
  do_wl_list_remove (dev, h_destroy) ;;
  do_free dev.

(** [znew] aborts the process when memory runs out, so it returns a
    record; a device that already has a record is outside the model. *)
Definition tablet_init (st : seat) (wlr_device : wlr_tablet F) : M unit :=
  fun s =>
    match lookup_record (base wlr_device) (records s) with
    | Some _ => None
    | None =>
        (emit [wlr_log log_setting_up] ;;
         set_record (base wlr_device)
           (mk_drawing_tablet st wlr_device dzero dzero) ;;
         emit [wlr_log log_dimensions] ;;
         CONNECT_SIGNAL (base wlr_device) h_axis ;;
         CONNECT_SIGNAL (base wlr_device) h_proximity ;;
         CONNECT_SIGNAL (base wlr_device) h_tip ;;
         CONNECT_SIGNAL (base wlr_device) h_button ;;
         CONNECT_SIGNAL (base wlr_device) h_destroy) s
    end.

(** What a device can emit, with the signal each event is emitted on. *)
Inductive event : Type :=
  | ev_axis (ev : wlr_tablet_tool_axis_event F)
  | ev_proximity (ev : wlr_tablet_tool_proximity_event)
  | ev_tip (ev : wlr_tablet_tool_tip_event)
  | ev_button (ev : wlr_tablet_tool_button_event)
  | ev_destroy.

Definition signal_of (e : event) : handler :=
  match e with
  | ev_axis _ => h_axis
  | ev_proximity _ => h_proximity
  | ev_tip _ => h_tip
  | ev_button _ => h_button
  | ev_destroy => h_destroy
  end.

(** The callback of a listener, run on the record of its device. *)
Definition run_handler (rc : tablet_config F) (dev : wlr_input_device)
    (e : event) : M unit :=
  match e with
  | ev_axis ev =>
      t <- get_record dev ;;
      let (t', eff) := handle_axis rc t ev in
      set_record dev t' ;; emit eff
  | ev_proximity ev => emit (handle_proximity ev)
  | ev_tip ev =>
      t <- get_record dev ;;
      emit (handle_tip tablet_get_mapped_button t ev)
  | ev_button ev =>
      t <- get_record dev ;;
      emit (handle_button tablet_get_mapped_button t ev)
  | ev_destroy => handle_destroy dev
  end.

(** Emission of a signal of a device: the callback runs when its listener
    is linked into the signal's list, and nothing happens otherwise. *)
Definition wl_signal_emit (rc : tablet_config F) (dev : wlr_input_device)
    (e : event) : M unit := fun s =>
  if is_linked (dev, signal_of e) s
  then (emit [notify (dev, signal_of e)] ;; run_handler rc dev e) s
  else Some (tt, s, []).

(** The event loop: one emission after the other, each handler running to
    completion; the configuration in force is read per event. *)
Fixpoint run (evs : list (tablet_config F * wlr_input_device * event))
    : M unit :=
  match evs with
  | [] => ret tt
  | (rc, dev, e) :: evs' => wl_signal_emit rc dev e ;; run evs'
  end.

End Lifecycle.

Arguments server F : clear implicits.
Arguments event F : clear implicits.

(** ** Vocabulary of the specification, in exact arithmetic *)

(** The closed unit interval and the unit square. *)
Definition unit_interval (a : Q) : Prop := 0 <= a /\ a <= 1.

Definition unit_square (p : Q * Q) : Prop :=
  unit_interval (fst p) /\ unit_interval (snd p).

(** Equality of points, up to the representation of rationals. *)
Definition pt_eq (p q : Q * Q) : Prop := fst p == fst q /\ snd p == snd q.

(** [n] applications of a function. *)
Fixpoint iterate {A : Type} (n : nat) (f : A -> A) (a : A) : A :=
  match n with
  | O => a
  | S n' => f (iterate n' f a)
  end.



(** ** Vocabulary for the axis handler *)

Section AxisVocabulary.
Context {F : Type} `{Double F}.

(** The pair that [handle_axis] hands to the cursor for a stored position. *)
Definition emitted_position (rc : tablet_config F) (tablet : drawing_tablet F)
    : F * F :=
  adjust_for_rotation (rc_rotation rc)
    (adjust_for_tablet_area (width_mm (dt_tablet tablet))
       (height_mm (dt_tablet tablet)) (rc_box rc) (dt_x tablet, dt_y tablet)).

(** The stored record after the coordinates named in the mask are taken
    from the event. *)
Definition updated_record (tablet : drawing_tablet F)
    (ev : wlr_tablet_tool_axis_event F) : drawing_tablet F :=
  mk_drawing_tablet (dt_seat tablet) (dt_tablet tablet)
    (if (Z.land (updated_axes ev) WLR_TABLET_TOOL_AXIS_X =? 0)%Z
     then dt_x tablet else axis_x ev)
    (if (Z.land (updated_axes ev) WLR_TABLET_TOOL_AXIS_Y =? 0)%Z
     then dt_y tablet else axis_y ev).

End AxisVocabulary.

(** ** Vocabulary for traces *)

(** How many times a trace unlinks a listener, and how many times it
    releases the record of a device. *)
Fixpoint revocations {F : Type} (l : listener) (tr : list (effect F)) : nat :=
  match tr with
  | [] => O
  | wl_list_remove l' :: tr' =>
      if listener_eqb l l' then S (revocations l tr') else revocations l tr'
  | _ :: tr' => revocations l tr'
  end.

(** The callbacks entered on the listeners of a device, in order. *)
Fixpoint callbacks_of {F : Type} (dev : wlr_input_device) (tr : list (effect F))
    : list handler :=
  match tr with
  | [] => []
  | notify (d, h) :: tr' =>
      if (d =? dev)%Z then h :: callbacks_of dev tr' else callbacks_of dev tr'
  | _ :: tr' => callbacks_of dev tr'
  end.

(** ** Vocabulary for the destroy handler *)

Section DestroyVocabulary.
Context {F : Type} `{Double F}.

(** No listener of the device is linked. *)
Definition quiet (dev : wlr_input_device) (s : server F) : Prop :=
  forall h, is_linked (dev, h) s = false.

Definition destroy_trace (dev : wlr_input_device) : list (effect F) :=
  [wl_list_remove (dev, h_tip); wl_list_remove (dev, h_button);
   wl_list_remove (dev, h_proximity); wl_list_remove (dev, h_axis);
   wl_list_remove (dev, h_destroy); free dev].

Definition destroyed (dev : wlr_input_device) (s : server F) : server F :=
  mk_server (delete_record dev (records s))
    (unlink (dev, h_destroy) (unlink (dev, h_axis) (unlink (dev, h_proximity)
       (unlink (dev, h_button) (unlink (dev, h_tip) (linked s)))))).

End DestroyVocabulary.

(** ** Sample data *)

(** A tablet of 100 mm by 50 mm on seat 1, device 7, and configurations
    that select the strip from 10 mm to 90 mm. *)
Definition sample_tablet : drawing_tablet float :=
  mk_drawing_tablet 1%Z (mk_wlr_tablet 7%Z 100%float 50%float)
    0.5%float 0.125%float.

Definition sample_rc : tablet_config float :=
  mk_tablet_config (mk_fbox 10%float 0%float 80%float 0%float) LAB_ROTATE_90.

Definition sample_rc_plain : tablet_config float :=
  mk_tablet_config (mk_fbox 10%float 0%float 80%float 0%float) LAB_ROTATE_NONE.

(** Y and pressure are reported, X is not. *)
Definition sample_y_event : wlr_tablet_tool_axis_event float :=
  mk_axis_event WLR_TABLET_TOOL_TYPE_PEN 10%Z 0.875%float 0.75%float 33%Z.









(** Button resolvers: the pen tip mapped to [BTN_LEFT], and nothing
    mapped. *)
Definition map_tip_to_left (code : Z) : Z :=
  if (code =? BTN_TOOL_PEN)%Z then 0x110%Z else 0%Z.

Definition map_nothing (code : Z) : Z := 0%Z.

(** The server with the record of [sample_tablet] and its listeners, as
    [tablet_init] leaves them. *)
Definition fresh_tablet : drawing_tablet float :=
  mk_drawing_tablet 1%Z (mk_wlr_tablet 7%Z 100%float 50%float) 0%float 0%float.

Definition sample_server : server float :=
  mk_server [(7%Z, fresh_tablet)]
    [(7%Z, h_destroy); (7%Z, h_button); (7%Z, h_tip);
     (7%Z, h_proximity); (7%Z, h_axis)].

Definition empty_server : server float := mk_server [] [].

(** A wide tablet of 152.4 mm by 95.25 mm whose area starts beyond it. *)
Definition beyond_edge_box : wlr_fbox float :=
  mk_fbox 408.7%float 0%float 0%float 0%float.

(** ** Vocabulary for runs of the event loop *)

(** Every device either has a record with its five listeners linked, or
    has neither a record nor a linked listener. *)
Definition consistent {F : Type} (s : server F) : Prop :=
  forall dev : wlr_input_device,
    (exists t, lookup_record dev (records s) = Some t
               /\ forall h, is_linked (dev, h) s = true)
    \/ (lookup_record dev (records s) = None
        /\ forall h, is_linked (dev, h) s = false).

(** The number of calls into the cursor emulation in a trace. *)
Fixpoint emulation_calls {F : Type} (tr : list (effect F)) : nat :=
  match tr with
  | [] => O
  | cursor_emulate_move_absolute _ _ _ _ _ :: tr' => S (emulation_calls tr')
  | cursor_emulate_button _ _ _ _ :: tr' => S (emulation_calls tr')
  | _ :: tr' => emulation_calls tr'
  end.

(** Axis, tip and button events, as opposed to proximity and destroy. *)
Definition is_pointer_event {F : Type} (e : event F) : bool :=
  match e with
  | ev_axis _ | ev_tip _ | ev_button _ => true
  | ev_proximity _ | ev_destroy => false
  end.

(** The five listeners of a device, in the order [tablet_init] leaves
    them in the list. *)
Definition listeners_of (dev : wlr_input_device) : list listener :=
  [(dev, h_destroy); (dev, h_button); (dev, h_tip);
   (dev, h_proximity); (dev, h_axis)].

(** ** Vocabulary for rotations *)

(** Angles add modulo a full turn. *)
Definition rotation_sum (a b : rotation) : rotation :=
  match a, b with
  | LAB_ROTATE_NONE, r | r, LAB_ROTATE_NONE => r
  | LAB_ROTATE_90, LAB_ROTATE_90 => LAB_ROTATE_180
  | LAB_ROTATE_90, LAB_ROTATE_180 | LAB_ROTATE_180, LAB_ROTATE_90 => LAB_ROTATE_270
  | LAB_ROTATE_90, LAB_ROTATE_270 | LAB_ROTATE_270, LAB_ROTATE_90 => LAB_ROTATE_NONE
  | LAB_ROTATE_180, LAB_ROTATE_180 => LAB_ROTATE_NONE
  | LAB_ROTATE_180, LAB_ROTATE_270 | LAB_ROTATE_270, LAB_ROTATE_180 => LAB_ROTATE_90
  | LAB_ROTATE_270, LAB_ROTATE_270 => LAB_ROTATE_180
  end.

(** ** Sample data for runs *)

(** A second tablet, device 8 on seat 2, beside [fresh_tablet]. *)
Definition second_tablet : drawing_tablet float :=
  mk_drawing_tablet 2%Z (mk_wlr_tablet 8%Z 152.4%float 95.25%float)
    0%float 0%float.

Definition two_tablet_server : server float :=
  mk_server [(8%Z, second_tablet); (7%Z, fresh_tablet)]
    (listeners_of 8%Z ++ listeners_of 7%Z).

Definition second_tablet_server : server float :=
  mk_server [(8%Z, second_tablet)] (listeners_of 8%Z).

(** A lens comes near, a pen reports a position, touches down, and the
    device goes away; a last tip event arrives for the device that is
    gone. *)
Definition sample_events
    : list (tablet_config float * wlr_input_device * event float) :=
  [(sample_rc, 7%Z,
    ev_proximity (mk_proximity_event WLR_TABLET_TOOL_TYPE_LENS
                    WLR_TABLET_TOOL_PROXIMITY_IN));
   (sample_rc, 7%Z, ev_axis sample_y_event);
   (sample_rc, 7%Z, ev_tip (mk_tip_event WLR_TABLET_TOOL_TIP_DOWN 40%Z));
   (sample_rc, 7%Z, ev_destroy);
   (sample_rc, 7%Z, ev_tip (mk_tip_event WLR_TABLET_TOOL_TIP_UP 41%Z))].

(** ** Vocabulary for the range of the emitted position *)


(** The strip from 70 mm to the right edge of the square tablet, and a
    pen reported on that edge. *)
Definition edge_box : wlr_fbox float :=
  mk_fbox 70%float 0%float 30%float 0%float.



(** * Properties *)

(** ** The shape of [adjust_for_tablet_area], for any arithmetic *)

Section GeometryFacts.
Context {F : Type} `{Double F}.

Lemma adjust_for_tablet_area_eq (tw th : F) (box : wlr_fbox F) (x y : F) :
  adjust_for_tablet_area tw th box (x, y) =
  if area_disabled tw th box then (x, y)
  else
    let w := resolved_size tw (fbox_x box) (fbox_width box) in
    let h := resolved_size th (fbox_y box) (fbox_height box) in
    (if fits tw (fbox_x box) w then rescale tw (fbox_x box) w x else x,
     if fits th (fbox_y box) h then rescale th (fbox_y box) h y else y).
Proof. reflexivity. Qed.

Lemma area_disabled_true (tw th : F) (box : wlr_fbox F) :
  area_disabled tw th box = true <->
  (dnot (fbox_x box) = true /\ dnot (fbox_y box) = true /\
   dnot (fbox_width box) = true /\ dnot (fbox_height box) = true)
  \/ dnot tw = true \/ dnot th = true.
Proof.
  unfold area_disabled.
  rewrite !orb_true_iff, !andb_true_iff. tauto.
Qed.

Lemma adjust_disabled (tw th : F) (box : wlr_fbox F) (xy : F * F) :
  area_disabled tw th box = true ->
  adjust_for_tablet_area tw th box xy = xy.
Proof.
  destruct xy as [x y]. intros Hd.
  rewrite adjust_for_tablet_area_eq, Hd. reflexivity.
Qed.

Lemma adjust_enabled_fst (tw th : F) (box : wlr_fbox F) (x y : F) :
  area_disabled tw th box = false ->
  fst (adjust_for_tablet_area tw th box (x, y)) =
  let w := resolved_size tw (fbox_x box) (fbox_width box) in
  if fits tw (fbox_x box) w then rescale tw (fbox_x box) w x else x.
Proof.
  intros Hd. rewrite adjust_for_tablet_area_eq, Hd. reflexivity.
Qed.

Lemma adjust_enabled_snd (tw th : F) (box : wlr_fbox F) (x y : F) :
  area_disabled tw th box = false ->
  snd (adjust_for_tablet_area tw th box (x, y)) =
  let h := resolved_size th (fbox_y box) (fbox_height box) in
  if fits th (fbox_y box) h then rescale th (fbox_y box) h y else y.
Proof.
  intros Hd. rewrite adjust_for_tablet_area_eq, Hd. reflexivity.
Qed.

(** An axis whose rectangle overflows keeps its coordinate, whether or
    not the function returned early. *)
Lemma adjust_overflow_fst (tw th : F) (box : wlr_fbox F) (x y : F) :
  fits tw (fbox_x box) (resolved_size tw (fbox_x box) (fbox_width box)) = false ->
  fst (adjust_for_tablet_area tw th box (x, y)) = x.
Proof.
  intros Hf. rewrite adjust_for_tablet_area_eq.
  destruct (area_disabled tw th box); cbn; [reflexivity|].
  rewrite Hf. reflexivity.
Qed.

Lemma adjust_overflow_snd (tw th : F) (box : wlr_fbox F) (x y : F) :
  fits th (fbox_y box) (resolved_size th (fbox_y box) (fbox_height box)) = false ->
  snd (adjust_for_tablet_area tw th box (x, y)) = y.
Proof.
  intros Hf. rewrite adjust_for_tablet_area_eq.
  destruct (area_disabled tw th box); cbn; [reflexivity|].
  rewrite Hf. reflexivity.
Qed.

End GeometryFacts.

(** ** Exact arithmetic: the tests of the code as order and equality *)

Lemma exact_dnot (a : Q) : dnot a = true <-> a == 0.
Proof. apply Qeq_bool_iff. Qed.

Lemma exact_dnot_false (a : Q) : dnot a = false <-> ~ a == 0.
Proof.
  rewrite <- exact_dnot. destruct (dnot a); split; congruence.
Qed.

Lemma exact_fits (t o s : Q) : fits t o s = true <-> o + s <= t.
Proof. apply Qle_bool_iff. Qed.

Lemma exact_fits_false (t o s : Q) : fits t o s = false <-> t < o + s.
Proof.
  split.
  - intros Hf. apply Qnot_le_lt. intros Hle.
    apply exact_fits in Hle. congruence.
  - intros Hlt. destruct (fits t o s) eqn:E; [|reflexivity].
    apply exact_fits in E. lra.
Qed.

Lemma exact_rescale (t o s v : Q) :
  ~ t == 0 -> ~ s == 0 -> rescale t o s v == (v * t - o) / s.
Proof.
  intros Ht Hs. unfold rescale; cbn. field. split; assumption.
Qed.

Lemma exact_resolved_zero (t o s : Q) :
  s == 0 -> resolved_size t o s = t - o.
Proof.
  intros Hs. unfold resolved_size. apply exact_dnot in Hs. rewrite Hs. reflexivity.
Qed.

Lemma exact_resolved_nonzero (t o s : Q) :
  ~ s == 0 -> resolved_size t o s = s.
Proof.
  intros Hs. unfold resolved_size. apply exact_dnot_false in Hs. rewrite Hs. reflexivity.
Qed.

Lemma area_enabled_intro {F : Type} `{Double F} (tw th : F) (box : wlr_fbox F) :
  dnot (fbox_x box) = false \/ dnot (fbox_y box) = false \/
  dnot (fbox_width box) = false \/ dnot (fbox_height box) = false ->
  dnot tw = false -> dnot th = false ->
  area_disabled tw th box = false.
Proof.
  intros Hbox Htw Hth. unfold area_disabled. rewrite Htw, Hth, !orb_false_r.
  rewrite !andb_false_iff. tauto.
Qed.

(** ** The early return *)

(** C9: [adjust_for_tablet_area] returns its input unchanged when the four
    fields of the area all test as zero, and when the physical width or
    the physical height tests as zero; for every coordinate pair, every
    physical size and either arithmetic. *)
Theorem adjust_for_tablet_area_sentinel_or_unknown_size :
  forall (F : Type) (D : Double F) (tw th : F) (box : wlr_fbox F) (xy : F * F),
    (dnot (fbox_x box) = true /\ dnot (fbox_y box) = true /\
     dnot (fbox_width box) = true /\ dnot (fbox_height box) = true)
    \/ dnot tw = true \/ dnot th = true ->
    adjust_for_tablet_area tw th box xy = xy.
Proof.
  intros F D tw th box xy Hz.
  apply adjust_disabled, area_disabled_true, Hz.
Qed.

Lemma adjust_for_tablet_area_sentinel_or_unknown_size_witness :
  adjust_for_tablet_area 152.4%float 95.25%float
    (mk_fbox 0%float 0%float 0%float 0%float) (0.3%float, 0.7%float)
  = (0.3%float, 0.7%float)
  /\ adjust_for_tablet_area 0%float 95.25%float
    (mk_fbox 10%float 0%float 80%float 0%float) (0.3%float, 0.7%float)
  = (0.3%float, 0.7%float).
Proof.
  split.
  - apply (adjust_for_tablet_area_sentinel_or_unknown_size float binary64).
    left. repeat split; reflexivity.
  - apply (adjust_for_tablet_area_sentinel_or_unknown_size float binary64).
    right. left. reflexivity.
Defined.

(** The same in the vocabulary of each arithmetic: rational zero, and the
    two zeros of binary64. *)
Lemma adjust_sentinel_exact (tw th : Q) (box : wlr_fbox Q) (xy : Q * Q) :
  (fbox_x box == 0 /\ fbox_y box == 0 /\ fbox_width box == 0 /\ fbox_height box == 0)
  \/ tw == 0 \/ th == 0 ->
  adjust_for_tablet_area tw th box xy = xy.
Proof.
  intros Hz. apply adjust_disabled, area_disabled_true.
  rewrite !exact_dnot. exact Hz.
Qed.

Lemma adjust_sentinel_binary64 (tw th : float) (xy : float * float) :
  adjust_for_tablet_area tw th (mk_fbox 0%float 0%float 0%float 0%float) xy = xy
  /\ adjust_for_tablet_area tw th
       (mk_fbox (-0)%float (-0)%float (-0)%float (-0)%float) xy = xy.
Proof.
  split; apply adjust_disabled, area_disabled_true; left;
    repeat split; reflexivity.
Qed.

Lemma adjust_unknown_size_binary64 (t : float) (box : wlr_fbox float)
    (xy : float * float) :
  adjust_for_tablet_area 0%float t box xy = xy
  /\ adjust_for_tablet_area t 0%float box xy = xy.
Proof.
  split; apply adjust_disabled, area_disabled_true; right;
    [left | right]; reflexivity.
Qed.

(** ** Overflowing rectangles *)

(** C2: when [adjust_for_tablet_area] does not return early, each axis is
    decided by its own guard: an axis whose offset plus resolved size
    exceeds the physical size keeps its coordinate, an axis that fits is
    rescaled, whatever the other axis does. The function is total, so no
    error is raised. With x = 50 and width = 80 on a width of 100 the x
    coordinate is returned as it came, in binary64 and in exact
    arithmetic. *)
Theorem adjust_for_tablet_area_axes_independent :
  (forall (F : Type) (D : Double F) (tw th : F) (box : wlr_fbox F) (x y : F),
      area_disabled tw th box = false ->
      let w := resolved_size tw (fbox_x box) (fbox_width box) in
      let h := resolved_size th (fbox_y box) (fbox_height box) in
      let r := adjust_for_tablet_area tw th box (x, y) in
      (fits tw (fbox_x box) w = false -> fst r = x) /\
      (fits th (fbox_y box) h = false -> snd r = y) /\
      (fits tw (fbox_x box) w = true -> fst r = rescale tw (fbox_x box) w x) /\
      (fits th (fbox_y box) h = true -> snd r = rescale th (fbox_y box) h y))
  /\ (forall (tw th : Q) (box : wlr_fbox Q) (x y : Q),
      area_disabled tw th box = false ->
      let w := resolved_size tw (fbox_x box) (fbox_width box) in
      let h := resolved_size th (fbox_y box) (fbox_height box) in
      let r := adjust_for_tablet_area tw th box (x, y) in
      (tw < fbox_x box + w -> fst r = x) /\
      (th < fbox_y box + h -> snd r = y))
  /\ (forall (th by_ bh x y : float),
      fst (adjust_for_tablet_area 100%float th
             (mk_fbox 50%float by_ 80%float bh) (x, y)) = x)
  /\ (forall (th by_ bh x y : Q),
      fst (adjust_for_tablet_area 100 th (mk_fbox 50 by_ 80 bh) (x, y)) = x).
Proof.
  split; [|split; [|split]].
  - intros F D tw th box x y Hd w h r. subst w h r.
    rewrite (adjust_enabled_fst tw th box x y Hd).
    rewrite (adjust_enabled_snd tw th box x y Hd). cbv zeta.
    repeat split; intros Hf; rewrite Hf; reflexivity.
  - intros tw th box x y Hd w h r. subst w h r. split; intros Hlt.
    + apply adjust_overflow_fst, exact_fits_false, Hlt.
    + apply adjust_overflow_snd, exact_fits_false, Hlt.
  - intros th by_ bh x y. apply adjust_overflow_fst. reflexivity.
  - intros th by_ bh x y. apply adjust_overflow_fst. reflexivity.
Qed.

Lemma adjust_for_tablet_area_axes_independent_witness :
  area_disabled 100%float 100%float
    (mk_fbox 50%float 10%float 80%float 80%float) = false
  /\ fst (adjust_for_tablet_area 100%float 100%float
            (mk_fbox 50%float 10%float 80%float 80%float) (0.5%float, 0.5%float))
     = 0.5%float
  /\ snd (adjust_for_tablet_area 100%float 100%float
            (mk_fbox 50%float 10%float 80%float 80%float) (0.5%float, 0.5%float))
     = rescale 100%float 10%float 80%float 0.5%float.
Proof.
  assert (Hd : area_disabled 100%float 100%float
                 (mk_fbox 50%float 10%float 80%float 80%float) = false)
    by reflexivity.
  destruct adjust_for_tablet_area_axes_independent as [Hgen _].
  destruct (Hgen float binary64 100%float 100%float
              (mk_fbox 50%float 10%float 80%float 80%float)
              0.5%float 0.5%float Hd) as (Hx & _ & _ & Hy).
  split; [exact Hd|]. split.
  - apply Hx. reflexivity.
  - apply Hy. reflexivity.
Defined.

(** ** The rescaling formula *)

(** C4: on an axis that is adjusted the result is
    [(raw - 1 * offset / physical) * physical / effective_size], computed
    in this order; in exact arithmetic this is
    [(raw - offset / physical) * physical / effective_size]. With a
    physical width of 100, a nonzero physical height and the area
    (10, 0, 80, 0), raw x = 0.5 gives 0.5 and raw x = 0.1 gives 0, in
    binary64 and in exact arithmetic. *)
Theorem adjust_for_tablet_area_formula :
  (forall (F : Type) (D : Double F) (tw th : F) (box : wlr_fbox F) (x y : F),
      area_disabled tw th box = false ->
      let w := resolved_size tw (fbox_x box) (fbox_width box) in
      let h := resolved_size th (fbox_y box) (fbox_height box) in
      let r := adjust_for_tablet_area tw th box (x, y) in
      (fits tw (fbox_x box) w = true ->
       fst r = ((x - done * fbox_x box / tw) * tw / w)%D) /\
      (fits th (fbox_y box) h = true ->
       snd r = ((y - done * fbox_y box / th) * th / h)%D))
  /\ (forall (tw th : Q) (box : wlr_fbox Q) (x y : Q),
      area_disabled tw th box = false ->
      let w := resolved_size tw (fbox_x box) (fbox_width box) in
      let h := resolved_size th (fbox_y box) (fbox_height box) in
      let r := adjust_for_tablet_area tw th box (x, y) in
      (fbox_x box + w <= tw -> fst r == (x - fbox_x box / tw) * tw / w) /\
      (fbox_y box + h <= th -> snd r == (y - fbox_y box / th) * th / h))
  /\ (forall (th y : float),
      dnot th = false ->
      let box := mk_fbox 10%float 0%float 80%float 0%float in
      fst (adjust_for_tablet_area 100%float th box (0.5%float, y)) = 0.5%float /\
      fst (adjust_for_tablet_area 100%float th box (0.1%float, y)) = 0%float)
  /\ (forall (th y : Q),
      ~ th == 0 ->
      let box := mk_fbox 10 0 80 0 in
      fst (adjust_for_tablet_area 100 th box (1 # 2, y)) == 1 # 2 /\
      fst (adjust_for_tablet_area 100 th box (1 # 10, y)) == 0).
Proof.
  split; [|split; [|split]].
  - intros F D tw th box x y Hd w h r. subst w h r.
    rewrite (adjust_enabled_fst tw th box x y Hd).
    rewrite (adjust_enabled_snd tw th box x y Hd). cbv zeta.
    split; intros Hf; rewrite Hf; reflexivity.
  - intros tw th box x y Hd w h r. subst w h r.
    rewrite (adjust_enabled_fst tw th box x y Hd).
    rewrite (adjust_enabled_snd tw th box x y Hd). cbv zeta.
    split; intros Hf; apply exact_fits in Hf; rewrite Hf;
      unfold rescale, Qdiv; cbn; unfold Qdiv; ring.
  - intros th y Hth box. subst box.
    assert (Hd : area_disabled 100%float th
                   (mk_fbox 10%float 0%float 80%float 0%float) = false)
      by (apply area_enabled_intro; [left; reflexivity | reflexivity | exact Hth]).
    rewrite !(adjust_enabled_fst _ _ _ _ _ Hd). split; reflexivity.
  - intros th y Hth box. subst box.
    assert (Hd : area_disabled 100 th (mk_fbox 10 0 80 0) = false)
      by (apply area_enabled_intro;
          [left; reflexivity | reflexivity | apply exact_dnot_false, Hth]).
    rewrite !(adjust_enabled_fst _ _ _ _ _ Hd). split; reflexivity.
Qed.

Lemma adjust_for_tablet_area_formula_witness :
  dnot 62.5%float = false
  /\ fst (adjust_for_tablet_area 100%float 62.5%float
            (mk_fbox 10%float 0%float 80%float 0%float) (0.5%float, 0.25%float))
     = 0.5%float
  /\ fst (adjust_for_tablet_area 100%float 62.5%float
            (mk_fbox 10%float 0%float 80%float 0%float) (0.1%float, 0.25%float))
     = 0%float.
Proof.
  split; [reflexivity|].
  destruct adjust_for_tablet_area_formula as (_ & _ & Hb & _).
  apply (Hb 62.5%float 0.25%float). reflexivity.
Defined.

(** ** Tool classifier *)

(** C10: [tool_supports_absolute_motion] is a total function of the type
    tag alone; it is false exactly for the mouse and lens tags and true
    for every other tag, known or not. *)
Theorem tool_supports_absolute_motion_spec :
  forall tool_type : Z,
    (tool_supports_absolute_motion tool_type = false <->
     tool_type = WLR_TABLET_TOOL_TYPE_MOUSE \/ tool_type = WLR_TABLET_TOOL_TYPE_LENS)
    /\ (tool_type <> WLR_TABLET_TOOL_TYPE_MOUSE ->
        tool_type <> WLR_TABLET_TOOL_TYPE_LENS ->
        tool_supports_absolute_motion tool_type = true).
Proof.
  intros t. unfold tool_supports_absolute_motion.
  destruct (Z.eqb_spec t WLR_TABLET_TOOL_TYPE_MOUSE) as [Hm|Hm];
    destruct (Z.eqb_spec t WLR_TABLET_TOOL_TYPE_LENS) as [Hl|Hl];
    (split; [split; [intros Hf | intros [Hd|Hd]] | intros Hn1 Hn2]);
    try reflexivity; try discriminate; try contradiction; tauto.
Qed.

Lemma tool_supports_absolute_motion_spec_witness :
  tool_supports_absolute_motion 4242 = true
  /\ tool_supports_absolute_motion WLR_TABLET_TOOL_TYPE_TOTEM = true
  /\ tool_supports_absolute_motion WLR_TABLET_TOOL_TYPE_LENS = false.
Proof.
  split; [|split].
  - apply (tool_supports_absolute_motion_spec 4242); discriminate.
  - apply (tool_supports_absolute_motion_spec WLR_TABLET_TOOL_TYPE_TOTEM); discriminate.
  - apply (tool_supports_absolute_motion_spec WLR_TABLET_TOOL_TYPE_LENS).
    right. reflexivity.
Defined.

(** ** The zero size beyond the physical edge *)

Lemma Qdiv_pos_neg (n d : Q) : 0 < n -> d < 0 -> n / d < 0.
Proof.
  intros Hn Hd.
  assert (Hd' : ~ d == 0) by lra.
  assert (Hpos : 0 < n / - d) by (apply Qlt_shift_div_l; lra).
  assert (Heq : n / d == - (n / - d)) by (field; lra).
  rewrite Heq. lra.
Qed.

Lemma exact_rescale_flips (t o s v1 v2 : Q) :
  0 < t -> s < 0 -> v1 < v2 -> rescale t o s v2 < rescale t o s v1.
Proof.
  intros Ht Hs Hv.
  rewrite !exact_rescale by lra.
  assert (Hneg : ((v2 - v1) * t) / s < 0).
  { apply Qdiv_pos_neg; [|exact Hs].
    apply Qmult_lt_0_compat; lra. }
  assert (Heq : (v2 * t - o) / s == (v1 * t - o) / s + ((v2 - v1) * t) / s)
    by (field; lra).
  rewrite Heq. lra.
Qed.

Lemma exact_zero_size_axis (t o s v : Q) :
  s == 0 -> t < o ->
  let e := resolved_size t o s in
  e = t - o /\ e < 0 /\ fits t o e = true /\
  (0 < t -> forall v', v < v' -> rescale t o e v' < rescale t o e v).
Proof.
  intros Hs Hlt e. subst e. rewrite (exact_resolved_zero t o s Hs).
  split; [reflexivity|]. split; [lra|]. split.
  - apply exact_fits. lra.
  - intros Ht v' Hv. apply exact_rescale_flips; lra.
Qed.

(** C3, in exact arithmetic: with nonzero physical dimensions, an area
    that is not all zero, a zero width and an offset beyond the physical
    width, the resolved width is [physical_width - offset], which is
    negative; offset plus resolved width equals the physical width, so the
    guard passes and x is rescaled with the negative width; for a positive
    physical width a larger raw x gives a smaller result. The same holds
    for y. The last part shows one binary64 run in which no rounding
    occurs. *)
Theorem zero_size_beyond_edge_exact :
  (forall (tw th : Q) (box : wlr_fbox Q) (x y : Q),
      area_disabled tw th box = false ->
      (fbox_width box == 0 -> tw < fbox_x box ->
       let w := resolved_size tw (fbox_x box) (fbox_width box) in
       w = tw - fbox_x box /\ w < 0 /\
       fbox_x box + w == tw /\
       fits tw (fbox_x box) w = true /\
       fst (adjust_for_tablet_area tw th box (x, y))
         == (x - fbox_x box / tw) * tw / (tw - fbox_x box) /\
       (0 < tw -> forall x', x < x' ->
          fst (adjust_for_tablet_area tw th box (x', y))
          < fst (adjust_for_tablet_area tw th box (x, y))))
      /\
      (fbox_height box == 0 -> th < fbox_y box ->
       let h := resolved_size th (fbox_y box) (fbox_height box) in
       h = th - fbox_y box /\ h < 0 /\
       fbox_y box + h == th /\
       fits th (fbox_y box) h = true /\
       snd (adjust_for_tablet_area tw th box (x, y))
         == (y - fbox_y box / th) * th / (th - fbox_y box) /\
       (0 < th -> forall y', y < y' ->
          snd (adjust_for_tablet_area tw th box (x, y'))
          < snd (adjust_for_tablet_area tw th box (x, y)))))
  /\ (fits 100%float 150%float (resolved_size 100%float 150%float 0%float) = true
      /\ adjust_for_tablet_area 100%float 100%float
           (mk_fbox 150%float 0%float 0%float 0%float) (0.25%float, 0.5%float)
         = (2.5%float, 0.5%float)
      /\ adjust_for_tablet_area 100%float 100%float
           (mk_fbox 150%float 0%float 0%float 0%float) (0.75%float, 0.5%float)
         = (1.5%float, 0.5%float)).
Proof.
  split; [|repeat split; reflexivity].
  intros tw th box x y Hd. split.
  - intros Hz Hlt w.
    destruct (exact_zero_size_axis tw (fbox_x box) (fbox_width box) x Hz Hlt)
      as (He & Hneg & Hfit & Hflip).
    fold w in He, Hneg, Hfit, Hflip.
    split; [exact He|]. split; [exact Hneg|].
    split; [rewrite He; ring|]. split; [exact Hfit|]. split.
    + rewrite (adjust_enabled_fst tw th box x y Hd). cbv zeta. fold w.
      rewrite Hfit, He. unfold rescale, Qdiv; cbn; unfold Qdiv; ring.
    + intros Ht x' Hx.
      rewrite (adjust_enabled_fst tw th box x y Hd).
      rewrite (adjust_enabled_fst tw th box x' y Hd). cbv zeta. fold w.
      rewrite Hfit. apply Hflip; assumption.
  - intros Hz Hlt h.
    destruct (exact_zero_size_axis th (fbox_y box) (fbox_height box) y Hz Hlt)
      as (He & Hneg & Hfit & Hflip).
    fold h in He, Hneg, Hfit, Hflip.
    split; [exact He|]. split; [exact Hneg|].
    split; [rewrite He; ring|]. split; [exact Hfit|]. split.
    + rewrite (adjust_enabled_snd tw th box x y Hd). cbv zeta. fold h.
      rewrite Hfit, He. unfold rescale, Qdiv; cbn; unfold Qdiv; ring.
    + intros Ht y' Hy.
      rewrite (adjust_enabled_snd tw th box x y Hd).
      rewrite (adjust_enabled_snd tw th box x y' Hd). cbv zeta. fold h.
      rewrite Hfit. apply Hflip; assumption.
Qed.

Lemma zero_size_beyond_edge_exact_witness :
  area_disabled 100 100 (mk_fbox 150 0 0 0) = false
  /\ 0 == 0 /\ 100 < 150
  /\ fits 100 150 (resolved_size 100 150 0) = true
  /\ fst (adjust_for_tablet_area 100 100 (mk_fbox 150 0 0 0) (3 # 4, 1 # 2))
     < fst (adjust_for_tablet_area 100 100 (mk_fbox 150 0 0 0) (1 # 4, 1 # 2)).
Proof.
  assert (Hd : area_disabled 100 100 (mk_fbox 150 0 0 0) = false) by reflexivity.
  assert (Hz : fbox_width (mk_fbox 150 0 0 0) == 0) by reflexivity.
  assert (Hlt : 100 < fbox_x (mk_fbox 150 0 0 0)) by reflexivity.
  destruct zero_size_beyond_edge_exact as [Hgen _].
  destruct (Hgen 100 100 (mk_fbox 150 0 0 0) (1 # 4) (1 # 2) Hd) as [Hx _].
  destruct (Hx Hz Hlt) as (_ & _ & _ & Hfit & _ & Hflip).
  split; [exact Hd|]. split; [exact Hz|]. split; [exact Hlt|].
  split; [exact Hfit|].
  apply Hflip; reflexivity.
Defined.

(** In binary64 the sum [offset + (physical_width - offset)] is rounded
    twice and can land above the physical width: on a tablet 152.4 mm
    wide with the area starting at 408.7 mm and a zero width, the resolved
    width is -256.29999999999995, the sum is 152.40000000000003, the guard
    fails and x is returned as it came. *)
Lemma zero_size_beyond_edge_binary64_counterexample :
  area_disabled 152.4%float 95.25%float beyond_edge_box = false
  /\ dnot (fbox_width beyond_edge_box) = true
  /\ PrimFloat.ltb 152.4%float (fbox_x beyond_edge_box) = true
  /\ resolved_size 152.4%float (fbox_x beyond_edge_box) (fbox_width beyond_edge_box)
     = (-256.29999999999995)%float
  /\ (fbox_x beyond_edge_box + (-256.29999999999995)%float)%D
     = 152.40000000000003%float
  /\ fits 152.4%float (fbox_x beyond_edge_box)
       (resolved_size 152.4%float (fbox_x beyond_edge_box)
          (fbox_width beyond_edge_box)) = false
  /\ adjust_for_tablet_area 152.4%float 95.25%float beyond_edge_box
       (0.5%float, 0.5%float)
     = (0.5%float, 0.5%float).
Proof. repeat split; reflexivity. Qed.

(** With a negative physical width, which the tests of the code let
    through, the negative resolved width does not flip the axis. *)
Lemma negative_width_keeps_orientation :
  area_disabled (-100) 100 (mk_fbox 10 0 0 0) = false
  /\ -100 < 10
  /\ fits (-100) 10 (resolved_size (-100) 10 0) = true
  /\ fst (adjust_for_tablet_area (-100) 100 (mk_fbox 10 0 0 0) (1 # 4, 1 # 2))
     < fst (adjust_for_tablet_area (-100) 100 (mk_fbox 10 0 0 0) (3 # 4, 1 # 2)).
Proof. repeat split; reflexivity. Qed.

(** ** Rotation *)

Lemma exact_rotation_maps_square (r : rotation) (p : Q * Q) :
  unit_square p -> unit_square (adjust_for_rotation r p).
Proof.
  destruct p as [x y]. unfold unit_square, unit_interval.
  destruct r; cbn; intros [[? ?] [? ?]]; repeat split; lra.
Qed.

Lemma exact_rotation_injective (r : rotation) (p q : Q * Q) :
  pt_eq (adjust_for_rotation r p) (adjust_for_rotation r q) -> pt_eq p q.
Proof.
  destruct p as [x y], q as [x' y']. unfold pt_eq.
  destruct r; cbn; intros [? ?]; split; lra.
Qed.

(** The rotation that undoes [r]. *)
Lemma exact_rotation_surjective (r : rotation) (q : Q * Q) :
  unit_square q ->
  exists p, unit_square p /\ pt_eq (adjust_for_rotation r p) q.
Proof.
  destruct q as [x y]. unfold unit_square, unit_interval, pt_eq.
  cbn. intros [[? ?] [? ?]].
  destruct r.
  - exists (x, y). cbn. repeat split; lra.
  - exists (y, 1 - x). cbn. repeat split; lra.
  - exists (1 - x, 1 - y). cbn. repeat split; lra.
  - exists (1 - y, x). cbn. repeat split; lra.
Qed.

(** C5, in exact arithmetic: each of the four rotations maps the unit
    square into itself, is injective and reaches every point of the unit
    square; four applications of the rotation by 90 degrees and two
    applications of the rotation by 180 degrees give back the point. *)
Theorem adjust_for_rotation_bijection_exact :
  (forall r : rotation,
      (forall p, unit_square p -> unit_square (adjust_for_rotation r p))
      /\ (forall p q, pt_eq (adjust_for_rotation r p) (adjust_for_rotation r q) ->
                      pt_eq p q)
      /\ (forall q, unit_square q ->
                    exists p, unit_square p /\ pt_eq (adjust_for_rotation r p) q))
  /\ (forall p : Q * Q,
        pt_eq (iterate 4 (adjust_for_rotation LAB_ROTATE_90) p) p)
  /\ (forall p : Q * Q,
        pt_eq (iterate 2 (adjust_for_rotation LAB_ROTATE_180) p) p).
Proof.
  split; [|split].
  - intros r. split; [|split].
    + apply exact_rotation_maps_square.
    + apply exact_rotation_injective.
    + apply exact_rotation_surjective.
  - intros [x y]. unfold pt_eq. cbn. split; ring.
  - intros [x y]. unfold pt_eq. cbn. split; ring.
Qed.

Lemma adjust_for_rotation_bijection_exact_witness :
  unit_square (1 # 10, 1 # 4)
  /\ unit_square (adjust_for_rotation LAB_ROTATE_90 (1 # 10, 1 # 4))
  /\ exists p, unit_square p
               /\ pt_eq (adjust_for_rotation LAB_ROTATE_270 p) (1 # 10, 1 # 4).
Proof.
  assert (Hsq : unit_square (1 # 10, 1 # 4))
    by (unfold unit_square, unit_interval; cbn; repeat split; discriminate).
  destruct adjust_for_rotation_bijection_exact as [Hbij _].
  split; [exact Hsq|]. split.
  - apply (Hbij LAB_ROTATE_90). exact Hsq.
  - apply (Hbij LAB_ROTATE_270). exact Hsq.
Defined.

(** In binary64 [1 - (1 - x)] is [x] only up to rounding: the point
    (0.1, 0.25) of the unit square comes back from two rotations by 180
    degrees, and from four by 90 degrees, as (0.09999999999999998, 0.25);
    and the rotation by 180 degrees sends (2^-60, 0) and (0, 0) to the
    same point (1, 1). *)
Lemma adjust_for_rotation_binary64_counterexample :
  PrimFloat.leb 0%float 0.1%float = true
  /\ PrimFloat.leb 0.1%float 1%float = true
  /\ iterate 2 (adjust_for_rotation LAB_ROTATE_180) (0.1%float, 0.25%float)
     = (0.099999999999999978%float, 0.25%float)
  /\ iterate 2 (adjust_for_rotation LAB_ROTATE_180) (0.1%float, 0.25%float)
     <> (0.1%float, 0.25%float)
  /\ iterate 4 (adjust_for_rotation LAB_ROTATE_90) (0.1%float, 0.25%float)
     <> (0.1%float, 0.25%float)
  /\ adjust_for_rotation LAB_ROTATE_180 (0x1p-60%float, 0%float)
     = adjust_for_rotation LAB_ROTATE_180 (0%float, 0%float)
  /\ (0x1p-60%float, 0%float) <> (0%float, 0%float).
Proof.
  repeat split; try reflexivity; intros Heq.
  - apply (f_equal (fun p => PrimFloat.eqb (fst p) 0.1%float)) in Heq.
    vm_compute in Heq. discriminate.
  - apply (f_equal (fun p => PrimFloat.eqb (fst p) 0.1%float)) in Heq.
    vm_compute in Heq. discriminate.
  - apply (f_equal (fun p => PrimFloat.eqb (fst p) 0%float)) in Heq.
    vm_compute in Heq. discriminate.
Qed.

(** ** The axis handler *)

Lemma axis_mask_xy (m : Z) :
  Z.land m (Z.lor WLR_TABLET_TOOL_AXIS_X WLR_TABLET_TOOL_AXIS_Y) = 0%Z <->
  Z.land m WLR_TABLET_TOOL_AXIS_X = 0%Z /\ Z.land m WLR_TABLET_TOOL_AXIS_Y = 0%Z.
Proof.
  rewrite Z.land_lor_distr_r. apply Z.lor_eq_0_iff.
Qed.

Section AxisFacts.
Context {F : Type} `{Double F}.

Lemma handle_axis_emits (rc : tablet_config F) (tablet : drawing_tablet F)
    (ev : wlr_tablet_tool_axis_event F) :
  tool_supports_absolute_motion (axis_tool_type ev) = true ->
  Z.land (updated_axes ev)
    (Z.lor WLR_TABLET_TOOL_AXIS_X WLR_TABLET_TOOL_AXIS_Y) <> 0%Z ->
  handle_axis rc tablet ev =
  (updated_record tablet ev,
   [cursor_emulate_move_absolute (dt_seat tablet) (base (dt_tablet tablet))
      (fst (emitted_position rc (updated_record tablet ev)))
      (snd (emitted_position rc (updated_record tablet ev)))
      (axis_time_msec ev)]).
Proof.
  intros Hs Hm. unfold handle_axis, updated_record, emitted_position.
  rewrite Hs. apply Z.eqb_neq in Hm. rewrite Hm. cbn [negb].
  destruct tablet as [st wt tx ty].
  destruct (Z.land (updated_axes ev) WLR_TABLET_TOOL_AXIS_X =? 0)%Z;
    destruct (Z.land (updated_axes ev) WLR_TABLET_TOOL_AXIS_Y =? 0)%Z;
    reflexivity.
Qed.

Lemma handle_axis_silent (rc : tablet_config F) (tablet : drawing_tablet F)
    (ev : wlr_tablet_tool_axis_event F) :
  tool_supports_absolute_motion (axis_tool_type ev) = false \/
  Z.land (updated_axes ev)
    (Z.lor WLR_TABLET_TOOL_AXIS_X WLR_TABLET_TOOL_AXIS_Y) = 0%Z ->
  handle_axis rc tablet ev = (tablet, []).
Proof.
  intros Hc. unfold handle_axis.
  destruct (tool_supports_absolute_motion (axis_tool_type ev)); [|reflexivity].
  destruct Hc as [Hc|Hc]; [discriminate|]. rewrite Hc. reflexivity.
Qed.

End AxisFacts.

(** C6: an axis event of a tool that supports absolute motion, whose mask
    has the Y bit and not the X bit (any other bits allowed), leaves the
    stored x as it was, stores the event's y, and makes one call of
    [cursor_emulate_move_absolute], whose position is computed from the
    old x and the new y. *)
Theorem handle_axis_y_only :
  forall (F : Type) (D : Double F) (rc : tablet_config F)
         (tablet : drawing_tablet F) (ev : wlr_tablet_tool_axis_event F),
    tool_supports_absolute_motion (axis_tool_type ev) = true ->
    Z.land (updated_axes ev) WLR_TABLET_TOOL_AXIS_X = 0%Z ->
    Z.land (updated_axes ev) WLR_TABLET_TOOL_AXIS_Y <> 0%Z ->
    let tablet' := fst (handle_axis rc tablet ev) in
    let p :=
      adjust_for_rotation (rc_rotation rc)
        (adjust_for_tablet_area (width_mm (dt_tablet tablet))
           (height_mm (dt_tablet tablet)) (rc_box rc)
           (dt_x tablet, axis_y ev)) in
    dt_x tablet' = dt_x tablet
    /\ dt_y tablet' = axis_y ev
    /\ dt_seat tablet' = dt_seat tablet
    /\ dt_tablet tablet' = dt_tablet tablet
    /\ snd (handle_axis rc tablet ev) =
       [cursor_emulate_move_absolute (dt_seat tablet) (base (dt_tablet tablet))
          (fst p) (snd p) (axis_time_msec ev)].
Proof.
  intros F D rc tablet ev Hs Hx Hy tablet' p. subst tablet' p.
  assert (Hm : Z.land (updated_axes ev)
                 (Z.lor WLR_TABLET_TOOL_AXIS_X WLR_TABLET_TOOL_AXIS_Y) <> 0%Z).
  { rewrite axis_mask_xy. tauto. }
  rewrite (handle_axis_emits rc tablet ev Hs Hm).
  unfold updated_record, emitted_position. cbn [fst snd dt_x dt_y dt_seat dt_tablet].
  rewrite Hx. apply Z.eqb_neq in Hy. rewrite Hy. cbn [Z.eqb].
  repeat split; reflexivity.
Qed.

Lemma handle_axis_y_only_witness :
  handle_axis sample_rc sample_tablet sample_y_event =
  (mk_drawing_tablet 1%Z (mk_wlr_tablet 7%Z 100%float 50%float)
     0.5%float 0.75%float,
   [cursor_emulate_move_absolute 1%Z 7%Z 0.25%float 0.5%float 33%Z]).
Proof.
  pose proof (handle_axis_y_only float binary64 sample_rc sample_tablet
                sample_y_event eq_refl eq_refl ltac:(discriminate))
    as (Hx & Hy & Hs & Ht & He).
  destruct (handle_axis sample_rc sample_tablet sample_y_event) as [t' e'].
  destruct t' as [s' w' x' y'].
  cbn [fst snd dt_x dt_y dt_seat dt_tablet] in Hx, Hy, Hs, Ht, He.
  rewrite Hx, Hy, Hs, Ht, He. reflexivity.
Defined.

(** ** The tip handler *)

(** C7: when the resolver returns 0 for [BTN_TOOL_PEN], the tip callback
    makes no call and leaves the server state as it was; otherwise it
    leaves the state as it was and makes one call of
    [cursor_emulate_button] with the mapped code, pressed for a tip-down
    event and released for a tip-up event; the code does not depend on the
    event, so a down and its up carry the same code. *)
Theorem handle_tip_spec :
  forall (F : Type) (D : Double F) (tablet_get_mapped_button : Z -> Z)
         (rc : tablet_config F) (s : server F) (dev : wlr_input_device)
         (tablet : drawing_tablet F) (time_msec : Z),
    lookup_record dev (records s) = Some tablet ->
    let button := tablet_get_mapped_button BTN_TOOL_PEN in
    let tip st := ev_tip (mk_tip_event st time_msec) in
    (button = 0%Z ->
     forall st,
       handle_tip tablet_get_mapped_button tablet (mk_tip_event st time_msec) = []
       /\ run_handler tablet_get_mapped_button rc dev (tip st) s
          = Some (tt, s, []))
    /\ (button <> 0%Z ->
        run_handler tablet_get_mapped_button rc dev (tip WLR_TABLET_TOOL_TIP_DOWN) s
        = Some (tt, s, [cursor_emulate_button (dt_seat tablet) button
                          WLR_BUTTON_PRESSED time_msec])
        /\ run_handler tablet_get_mapped_button rc dev (tip WLR_TABLET_TOOL_TIP_UP) s
           = Some (tt, s, [cursor_emulate_button (dt_seat tablet) button
                             WLR_BUTTON_RELEASED time_msec])).
Proof.
  intros F D getb rc s dev tablet time_msec Hrec button tip. subst button tip.
  split.
  - intros Hz st. unfold run_handler, bind, get_record, emit, handle_tip.
    rewrite Hrec, Hz. cbn. split; reflexivity.
  - intros Hnz. apply Z.eqb_neq in Hnz.
    unfold run_handler, bind, get_record, emit, handle_tip.
    rewrite Hrec, Hnz. cbn. split; reflexivity.
Qed.

Lemma handle_tip_spec_witness :
  run_handler map_tip_to_left sample_rc 7%Z
    (ev_tip (mk_tip_event WLR_TABLET_TOOL_TIP_DOWN 5%Z)) sample_server
  = Some (tt, sample_server,
          [cursor_emulate_button 1%Z 0x110%Z WLR_BUTTON_PRESSED 5%Z])
  /\ run_handler map_tip_to_left sample_rc 7%Z
       (ev_tip (mk_tip_event WLR_TABLET_TOOL_TIP_UP 5%Z)) sample_server
     = Some (tt, sample_server,
             [cursor_emulate_button 1%Z 0x110%Z WLR_BUTTON_RELEASED 5%Z])
  /\ run_handler map_nothing sample_rc 7%Z
       (ev_tip (mk_tip_event WLR_TABLET_TOOL_TIP_DOWN 5%Z)) sample_server
     = Some (tt, sample_server, []).
Proof.
  split; [|split].
  - apply (handle_tip_spec float binary64 map_tip_to_left sample_rc
             sample_server 7%Z fresh_tablet 5%Z eq_refl).
    discriminate.
  - apply (handle_tip_spec float binary64 map_tip_to_left sample_rc
             sample_server 7%Z fresh_tablet 5%Z eq_refl).
    discriminate.
  - apply (handle_tip_spec float binary64 map_nothing sample_rc
             sample_server 7%Z fresh_tablet 5%Z eq_refl).
    reflexivity.
Defined.

(** ** The range of the emitted position *)












(** ** Destruction of a device *)

Lemma handler_eqb_refl (h : handler) : handler_eqb h h = true.
Proof. destruct h; reflexivity. Qed.

Lemma listener_eqb_same_dev (dev : wlr_input_device) (h h' : handler) :
  listener_eqb (dev, h) (dev, h') = handler_eqb h h'.
Proof. unfold listener_eqb. cbn. rewrite Z.eqb_refl. reflexivity. Qed.

Lemma listener_eqb_sym (a b : listener) : listener_eqb a b = listener_eqb b a.
Proof.
  destruct a as [d h], b as [d' h']. unfold listener_eqb. cbn.
  rewrite (Z.eqb_sym d d'). destruct h, h'; reflexivity.
Qed.

Lemma existsb_unlink_other (l l' : listener) (ls : list listener) :
  listener_eqb l l' = false ->
  existsb (listener_eqb l') (unlink l ls) = existsb (listener_eqb l') ls.
Proof.
  intros Hne. unfold unlink. induction ls as [|a ls IH]; [reflexivity|].
  cbn. destruct (listener_eqb l a) eqn:Hla; cbn.
  - rewrite IH.
    assert (Hl'a : listener_eqb l' a = false).
    { destruct l as [d h], l' as [d' h'], a as [d'' h''].
      unfold listener_eqb in *. cbn in *.
      apply andb_true_iff in Hla as [Hd Hh]. apply Z.eqb_eq in Hd. subst d''.
      rewrite (Z.eqb_sym d' d).
      destruct (d =? d')%Z; [|reflexivity]. cbn in *.
      destruct h, h', h''; cbn in *; congruence. }
    rewrite Hl'a. reflexivity.
  - rewrite IH. reflexivity.
Qed.

Lemma existsb_unlink_false (l l' : listener) (ls : list listener) :
  existsb (listener_eqb l') ls = false ->
  existsb (listener_eqb l') (unlink l ls) = false.
Proof.
  unfold unlink. induction ls as [|a ls IH]; [reflexivity|].
  cbn. intros Hf. apply orb_false_iff in Hf as [Ha Hls].
  destruct (listener_eqb l a); cbn; [auto|].
  rewrite Ha. cbn. auto.
Qed.

Lemma existsb_unlink_same (l : listener) (ls : list listener) :
  existsb (listener_eqb l) (unlink l ls) = false.
Proof.
  unfold unlink. induction ls as [|a ls IH]; [reflexivity|].
  cbn. destruct (listener_eqb l a) eqn:Hla; cbn; [exact IH|].
  rewrite Hla. exact IH.
Qed.

Lemma lookup_delete_record {F : Type} (dev : wlr_input_device)
    (rs : list (wlr_input_device * drawing_tablet F)) :
  lookup_record dev (delete_record dev rs) = None.
Proof.
  induction rs as [|[d t] rs IH]; [reflexivity|].
  cbn. destruct (d =? dev)%Z eqn:Hd; [exact IH|].
  cbn. rewrite Hd. exact IH.
Qed.

Section DestroyFacts.
Context {F : Type} `{Double F}.
Variable tablet_get_mapped_button : Z -> Z.

Lemma handle_destroy_inv (dev : wlr_input_device) (s : server F) r :
  handle_destroy dev s = Some r -> r = (tt, destroyed dev s, destroy_trace dev).
Proof.
  unfold handle_destroy, bind, do_wl_list_remove, do_free, is_linked.
  cbn [records linked].
  repeat match goal with
         | |- context [if ?c then _ else _] => destruct c; cbn [records linked]
         | |- context [match lookup_record ?d ?rs with _ => _ end] =>
             destruct (lookup_record d rs); cbn [records linked]
         end; intros Hr; try discriminate.
  injection Hr as <-. reflexivity.
Qed.

Lemma handle_destroy_runs (dev : wlr_input_device) (s : server F)
    (t : drawing_tablet F) :
  lookup_record dev (records s) = Some t ->
  (forall h, is_linked (dev, h) s = true) ->
  handle_destroy dev s = Some (tt, destroyed dev s, destroy_trace dev).
Proof.
  intros Hrec Hall.
  destruct (handle_destroy dev s) as [r|] eqn:Hr.
  - rewrite (handle_destroy_inv dev s r Hr). reflexivity.
  - exfalso. revert Hr.
    unfold handle_destroy, bind, do_wl_list_remove, do_free, is_linked.
    cbn [records linked].
    pose proof (Hall h_tip) as H1. pose proof (Hall h_button) as H2.
    pose proof (Hall h_proximity) as H3. pose proof (Hall h_axis) as H4.
    pose proof (Hall h_destroy) as H5. unfold is_linked in *.
    rewrite H1. cbn [records linked].
    rewrite !existsb_unlink_other
      by (rewrite listener_eqb_same_dev; reflexivity).
    rewrite H2. cbn [records linked].
    rewrite !existsb_unlink_other
      by (rewrite listener_eqb_same_dev; reflexivity).
    rewrite H3. cbn [records linked].
    rewrite !existsb_unlink_other
      by (rewrite listener_eqb_same_dev; reflexivity).
    rewrite H4. cbn [records linked].
    rewrite !existsb_unlink_other
      by (rewrite listener_eqb_same_dev; reflexivity).
    rewrite H5. cbn [records linked].
    rewrite Hrec. discriminate.
Qed.

Lemma destroyed_quiet (dev : wlr_input_device) (s : server F) :
  quiet dev (destroyed dev s).
Proof.
  intros h. unfold is_linked, destroyed. cbn [linked].
  destruct h;
    repeat first [apply existsb_unlink_same | apply existsb_unlink_false].
Qed.

Lemma destroyed_keeps_unlinked (dev : wlr_input_device) (s : server F)
    (l : listener) :
  is_linked l s = false -> is_linked l (destroyed dev s) = false.
Proof.
  unfold is_linked, destroyed. cbn [linked]. intros Hl.
  repeat apply existsb_unlink_false. exact Hl.
Qed.

Lemma callbacks_of_app (dev : wlr_input_device) (t1 t2 : list (effect F)) :
  callbacks_of dev (t1 ++ t2) = callbacks_of dev t1 ++ callbacks_of dev t2.
Proof.
  induction t1 as [|e t1 IH]; [reflexivity|].
  destruct e as [| | | | |[d h]]; cbn; try exact IH.
  destruct (d =? dev)%Z; cbn; rewrite IH; reflexivity.
Qed.

(** A callback links nothing and enters no other callback. *)
Lemma run_handler_quiet (rc : tablet_config F) (dev' : wlr_input_device)
    (e : event F) (s s' : server F) (tr : list (effect F)) :
  run_handler tablet_get_mapped_button rc dev' e s = Some (tt, s', tr) ->
  (forall l, is_linked l s = false -> is_linked l s' = false)
  /\ (forall dev, callbacks_of dev tr = []).
Proof.
  destruct e as [ev|ev|ev|ev|]; unfold run_handler.
  - unfold bind, get_record, set_record, emit.
    destruct (lookup_record dev' (records s)) as [t|]; [|discriminate].
    unfold handle_axis.
    destruct (negb (tool_supports_absolute_motion (axis_tool_type ev)));
      [|destruct (negb (Z.land (updated_axes ev)
                    (Z.lor WLR_TABLET_TOOL_AXIS_X WLR_TABLET_TOOL_AXIS_Y) =? 0)%Z)];
      cbn; intros Hr; injection Hr as <- <-; split; auto.
  - unfold emit, handle_proximity. intros Hr. injection Hr as <- <-.
    split; [auto|]. intros dev.
    destruct (negb (tool_supports_absolute_motion (proximity_tool_type ev)));
      [destruct (proximity_state ev)|]; reflexivity.
  - unfold bind, get_record, emit, handle_tip.
    destruct (lookup_record dev' (records s)) as [t|]; [|discriminate].
    intros Hr. injection Hr as <- <-. split; [auto|]. intros dev.
    destruct (tablet_get_mapped_button BTN_TOOL_PEN =? 0)%Z; reflexivity.
  - unfold bind, get_record, emit, handle_button.
    destruct (lookup_record dev' (records s)) as [t|]; [|discriminate].
    intros Hr. injection Hr as <- <-. split; [auto|]. intros dev.
    destruct (tablet_get_mapped_button (button_code ev) =? 0)%Z; reflexivity.
  - intros Hr. apply handle_destroy_inv in Hr. injection Hr as -> ->.
    split; [|reflexivity]. intros l. apply destroyed_keeps_unlinked.
Qed.

Lemma wl_signal_emit_quiet (rc : tablet_config F) (dev dev' : wlr_input_device)
    (e : event F) (s s' : server F) (tr : list (effect F)) :
  quiet dev s ->
  wl_signal_emit tablet_get_mapped_button rc dev' e s = Some (tt, s', tr) ->
  quiet dev s' /\ callbacks_of dev tr = [].
Proof.
  intros Hq. unfold wl_signal_emit.
  destruct (is_linked (dev', signal_of e) s) eqn:Hl.
  - unfold bind, emit.
    destruct (run_handler tablet_get_mapped_button rc dev' e s)
      as [[[[] s1] t1]|] eqn:Hr; [|discriminate].
    intros Hs. injection Hs as <- <-.
    destruct (run_handler_quiet rc dev' e s s1 t1 Hr) as [Hkeep Hcb].
    split.
    + intros h. apply Hkeep, Hq.
    + cbn. destruct (dev' =? dev)%Z eqn:Hd; [|apply Hcb].
      apply Z.eqb_eq in Hd. subst dev'. rewrite Hq in Hl. discriminate.
  - intros Hs. injection Hs as <- <-. split; [exact Hq|reflexivity].
Qed.

Lemma run_quiet (dev : wlr_input_device)
    (evs : list (tablet_config F * wlr_input_device * event F)) :
  forall (s s' : server F) (tr : list (effect F)),
    quiet dev s ->
    run tablet_get_mapped_button evs s = Some (tt, s', tr) ->
    quiet dev s' /\ callbacks_of dev tr = [].
Proof.
  induction evs as [|[[rc dev'] e] evs IH]; intros s s' tr Hq.
  - cbn. unfold ret. intros Hr. injection Hr as <- <-. split; [exact Hq|reflexivity].
  - cbn [run]. unfold bind.
    destruct (wl_signal_emit tablet_get_mapped_button rc dev' e s)
      as [[[[] s1] t1]|] eqn:He; [|discriminate].
    destruct (wl_signal_emit_quiet rc dev dev' e s s1 t1 Hq He) as [Hq1 Hc1].
    destruct (run tablet_get_mapped_button evs s1) as [[[[] s2] t2]|] eqn:Hr;
      [|discriminate].
    intros Hs. injection Hs as <- <-.
    destruct (IH s1 s2 t2 Hq1 Hr) as [Hq2 Hc2].
    split; [exact Hq2|]. rewrite callbacks_of_app, Hc1, Hc2. reflexivity.
Qed.

(** Emissions on a device without linked listeners do nothing at all. *)
Lemma run_quiet_device (dev : wlr_input_device)
    (evs : list (tablet_config F * event F)) (s : server F) :
  quiet dev s ->
  run tablet_get_mapped_button
    (map (fun re => (fst re, dev, snd re)) evs) s = Some (tt, s, []).
Proof.
  intros Hq. induction evs as [|[rc e] evs IH]; [reflexivity|].
  cbn [map run fst snd]. unfold bind, wl_signal_emit.
  rewrite Hq, IH. reflexivity.
Qed.

End DestroyFacts.

(** [tablet_init] leaves the record allocated and its five listeners
    linked, which is the state in which the destroy signal finds them. *)
Lemma tablet_init_subscribes {F : Type} `{Double F} (st : seat)
    (wlr_device : wlr_tablet F) (s s' : server F) (tr : list (effect F)) :
  tablet_init st wlr_device s = Some (tt, s', tr) ->
  lookup_record (base wlr_device) (records s')
    = Some (mk_drawing_tablet st wlr_device dzero dzero)
  /\ (forall h, is_linked (base wlr_device, h) s' = true)
  /\ tr = [wlr_log log_setting_up; wlr_log log_dimensions].
Proof.
  unfold tablet_init.
  destruct (lookup_record (base wlr_device) (records s)); [discriminate|].
  unfold bind, emit, set_record, CONNECT_SIGNAL, do_wl_signal_add, is_linked.
  repeat (cbn [records linked existsb];
          rewrite ?listener_eqb_same_dev; cbn [handler_eqb orb];
          match goal with
          | |- context [if existsb ?f ?l then _ else _] =>
              destruct (existsb f l); [discriminate|]
          end).
  cbn [records linked app]. intros Hr. injection Hr as <- <-.
  cbn [records linked lookup_record].
  rewrite Z.eqb_refl. split; [reflexivity|]. split; [|reflexivity].
  intros h. cbn [existsb]. rewrite !listener_eqb_same_dev.
  destruct h; cbn [handler_eqb orb]; reflexivity.
Qed.

(** C8: when the destroy signal of a device is emitted while its record is
    allocated and its five listeners are linked, the destroy handler
    unlinks the tip, button, proximity, axis and destroy listeners, each
    once, and only then releases the record. Afterwards no listener of the
    device is linked and the record is gone; any further emissions on that
    device run to completion without entering a callback or changing the
    state, and no run of further emissions, on any devices, enters a
    callback of that device. *)
Theorem handle_destroy_revokes_all :
  forall (F : Type) (D : Double F) (tablet_get_mapped_button : Z -> Z)
         (rc : tablet_config F) (s : server F) (dev : wlr_input_device)
         (tablet : drawing_tablet F),
    lookup_record dev (records s) = Some tablet ->
    (forall h, is_linked (dev, h) s = true) ->
    exists s' : server F,
      wl_signal_emit tablet_get_mapped_button rc dev ev_destroy s
      = Some (tt, s',
              [notify (dev, h_destroy);
               wl_list_remove (dev, h_tip); wl_list_remove (dev, h_button);
               wl_list_remove (dev, h_proximity); wl_list_remove (dev, h_axis);
               wl_list_remove (dev, h_destroy);
               free dev])
      /\ (forall h,
            revocations (dev, h)
              [notify (dev, h_destroy);
               wl_list_remove (dev, h_tip); wl_list_remove (dev, h_button);
               wl_list_remove (dev, h_proximity); wl_list_remove (dev, h_axis);
               wl_list_remove (dev, h_destroy);
               free (F := F) dev] = 1%nat)
      /\ (forall h, is_linked (dev, h) s' = false)
      /\ lookup_record dev (records s') = None
      /\ (forall evs : list (tablet_config F * event F),
            run tablet_get_mapped_button
              (map (fun re => (fst re, dev, snd re)) evs) s'
            = Some (tt, s', []))
      /\ (forall (evs : list (tablet_config F * wlr_input_device * event F))
                 (s'' : server F) (tr : list (effect F)),
            run tablet_get_mapped_button evs s' = Some (tt, s'', tr) ->
            callbacks_of dev tr = []).
Proof.
  intros F D getb rc s dev tablet Hrec Hall.
  exists (destroyed dev s).
  split; [|split; [|split; [|split; [|split]]]].
  - unfold wl_signal_emit. cbn [signal_of]. rewrite Hall.
    unfold bind, emit. cbn [run_handler].
    rewrite (handle_destroy_runs dev s tablet Hrec Hall). reflexivity.
  - intros h. cbn [revocations]. rewrite !listener_eqb_same_dev.
    destruct h; reflexivity.
  - apply destroyed_quiet.
  - apply lookup_delete_record.
  - intros evs. apply run_quiet_device, destroyed_quiet.
  - intros evs s'' tr Hrun.
    apply (run_quiet getb dev evs (destroyed dev s) s'' tr
             (destroyed_quiet dev s) Hrun).
Qed.

Lemma handle_destroy_revokes_all_witness :
  tablet_init 1%Z (mk_wlr_tablet 7%Z 100%float 50%float) empty_server
  = Some (tt, sample_server, [wlr_log log_setting_up; wlr_log log_dimensions])
  /\ wl_signal_emit map_tip_to_left sample_rc 7%Z ev_destroy sample_server
     = Some (tt, empty_server,
             [notify (7%Z, h_destroy);
              wl_list_remove (7%Z, h_tip); wl_list_remove (7%Z, h_button);
              wl_list_remove (7%Z, h_proximity); wl_list_remove (7%Z, h_axis);
              wl_list_remove (7%Z, h_destroy);
              free 7%Z])
  /\ run map_tip_to_left
       (map (fun re => (fst re, 7%Z, snd re))
          [(sample_rc, ev_tip (mk_tip_event WLR_TABLET_TOOL_TIP_DOWN 5%Z));
           (sample_rc, ev_axis sample_y_event)])
       empty_server
     = Some (tt, empty_server, []).
Proof.
  split; [reflexivity|].
  destruct (handle_destroy_revokes_all float binary64 map_tip_to_left sample_rc
              sample_server 7%Z fresh_tablet eq_refl)
    as (s' & Hemit & _ & _ & _ & Hrun & _).
  { intros h. destruct h; reflexivity. }
  assert (Hs' : s' = empty_server).
  { assert (He : wl_signal_emit map_tip_to_left sample_rc 7%Z ev_destroy
                   sample_server
                 = Some (tt, empty_server,
                         [notify (7%Z, h_destroy);
                          wl_list_remove (7%Z, h_tip);
                          wl_list_remove (7%Z, h_button);
                          wl_list_remove (7%Z, h_proximity);
                          wl_list_remove (7%Z, h_axis);
                          wl_list_remove (7%Z, h_destroy);
                          free 7%Z])) by reflexivity.
    rewrite He in Hemit. injection Hemit as <-. reflexivity. }
  subst s'. split; [exact Hemit|].
  exact (Hrun [(sample_rc, ev_tip (mk_tip_event WLR_TABLET_TOOL_TIP_DOWN 5%Z));
               (sample_rc, ev_axis sample_y_event)]).
Defined.

(** * Further properties of the handlers *)

(** ** The button handler *)

(** X1: a button event whose code the resolver maps to 0 makes no call;
    otherwise the callback makes one call of [cursor_emulate_button] with
    the mapped code and the event's own state and time. In both cases the
    server state is left as it was. *)
Theorem handle_button_spec :
  forall (F : Type) (D : Double F) (tablet_get_mapped_button : Z -> Z)
         (rc : tablet_config F) (s : server F) (dev : wlr_input_device)
         (tablet : drawing_tablet F) (ev : wlr_tablet_tool_button_event),
    lookup_record dev (records s) = Some tablet ->
    (tablet_get_mapped_button (button_code ev) = 0%Z ->
     run_handler tablet_get_mapped_button rc dev (ev_button ev) s
     = Some (tt, s, []))
    /\ (tablet_get_mapped_button (button_code ev) <> 0%Z ->
        run_handler tablet_get_mapped_button rc dev (ev_button ev) s
        = Some (tt, s,
                [cursor_emulate_button (dt_seat tablet)
                   (tablet_get_mapped_button (button_code ev))
                   (button_state ev) (button_time_msec ev)])).
Proof.
  intros F D getb rc s dev tablet ev Hrec.
  unfold run_handler, bind, get_record, emit, handle_button.
  rewrite Hrec. split.
  - intros Hz. rewrite Hz. reflexivity.
  - intros Hnz. apply Z.eqb_neq in Hnz. rewrite Hnz. reflexivity.
Qed.

Lemma handle_button_spec_witness :
  run_handler map_tip_to_left sample_rc 7%Z
    (ev_button (mk_button_event BTN_TOOL_PEN WLR_BUTTON_RELEASED 9%Z))
    sample_server
  = Some (tt, sample_server,
          [cursor_emulate_button 1%Z 0x110%Z WLR_BUTTON_RELEASED 9%Z])
  /\ run_handler map_tip_to_left sample_rc 7%Z
       (ev_button (mk_button_event 0x14b%Z WLR_BUTTON_PRESSED 9%Z))
       sample_server
     = Some (tt, sample_server, []).
Proof.
  split.
  - apply (handle_button_spec float binary64 map_tip_to_left sample_rc
             sample_server 7%Z fresh_tablet
             (mk_button_event BTN_TOOL_PEN WLR_BUTTON_RELEASED 9%Z) eq_refl).
    discriminate.
  - apply (handle_button_spec float binary64 map_tip_to_left sample_rc
             sample_server 7%Z fresh_tablet
             (mk_button_event 0x14b%Z WLR_BUTTON_PRESSED 9%Z) eq_refl).
    reflexivity.
Defined.

(** ** Axis events that are ignored, and partial updates *)

(** X2: an axis event of a mouse or lens tool, and an axis event whose
    mask has neither the X nor the Y bit (pressure, tilt and the like),
    leaves the record as it was and makes no call. *)
Theorem handle_axis_ignored :
  forall (F : Type) (D : Double F) (rc : tablet_config F)
         (tablet : drawing_tablet F) (ev : wlr_tablet_tool_axis_event F),
    axis_tool_type ev = WLR_TABLET_TOOL_TYPE_MOUSE
    \/ axis_tool_type ev = WLR_TABLET_TOOL_TYPE_LENS
    \/ (Z.land (updated_axes ev) WLR_TABLET_TOOL_AXIS_X = 0%Z
        /\ Z.land (updated_axes ev) WLR_TABLET_TOOL_AXIS_Y = 0%Z) ->
    handle_axis rc tablet ev = (tablet, []).
Proof.
  intros F D rc tablet ev Hc. apply handle_axis_silent.
  destruct Hc as [Hm|[Hl|Hmask]].
  - left. rewrite Hm. reflexivity.
  - left. rewrite Hl. reflexivity.
  - right. apply axis_mask_xy. exact Hmask.
Qed.

Lemma handle_axis_ignored_witness :
  handle_axis sample_rc sample_tablet
    (mk_axis_event WLR_TABLET_TOOL_TYPE_LENS 3%Z 0.875%float 0.75%float 33%Z)
  = (sample_tablet, [])
  /\ handle_axis sample_rc sample_tablet
       (mk_axis_event WLR_TABLET_TOOL_TYPE_PEN 0x1fc%Z 0.875%float 0.75%float 33%Z)
     = (sample_tablet, []).
Proof.
  split.
  - apply (handle_axis_ignored float binary64). right. left. reflexivity.
  - apply (handle_axis_ignored float binary64). right. right.
    split; reflexivity.
Defined.

(** X3: an axis event of a tool that supports absolute motion whose mask
    has the X bit and not the Y bit stores the event's x, keeps the stored
    y, and makes one call whose position is computed from the new x and
    the old y. *)
Theorem handle_axis_x_only :
  forall (F : Type) (D : Double F) (rc : tablet_config F)
         (tablet : drawing_tablet F) (ev : wlr_tablet_tool_axis_event F),
    tool_supports_absolute_motion (axis_tool_type ev) = true ->
    Z.land (updated_axes ev) WLR_TABLET_TOOL_AXIS_X <> 0%Z ->
    Z.land (updated_axes ev) WLR_TABLET_TOOL_AXIS_Y = 0%Z ->
    handle_axis rc tablet ev =
    (mk_drawing_tablet (dt_seat tablet) (dt_tablet tablet)
       (axis_x ev) (dt_y tablet),
     [cursor_emulate_move_absolute (dt_seat tablet) (base (dt_tablet tablet))
        (fst (adjust_for_rotation (rc_rotation rc)
                (adjust_for_tablet_area (width_mm (dt_tablet tablet))
                   (height_mm (dt_tablet tablet)) (rc_box rc)
                   (axis_x ev, dt_y tablet))))
        (snd (adjust_for_rotation (rc_rotation rc)
                (adjust_for_tablet_area (width_mm (dt_tablet tablet))
                   (height_mm (dt_tablet tablet)) (rc_box rc)
                   (axis_x ev, dt_y tablet))))
        (axis_time_msec ev)]).
Proof.
  intros F D rc tablet ev Hs Hx Hy.
  assert (Hm : Z.land (updated_axes ev)
                 (Z.lor WLR_TABLET_TOOL_AXIS_X WLR_TABLET_TOOL_AXIS_Y) <> 0%Z).
  { rewrite axis_mask_xy. tauto. }
  rewrite (handle_axis_emits rc tablet ev Hs Hm).
  unfold updated_record, emitted_position. cbn [dt_x dt_y dt_seat dt_tablet].
  rewrite Hy. apply Z.eqb_neq in Hx. rewrite Hx. reflexivity.
Qed.

Lemma handle_axis_x_only_witness :
  handle_axis sample_rc_plain sample_tablet
    (mk_axis_event WLR_TABLET_TOOL_TYPE_ERASER 1%Z 0.9%float 0.75%float 34%Z)
  = (mk_drawing_tablet 1%Z (mk_wlr_tablet 7%Z 100%float 50%float)
       0.9%float 0.125%float,
     [cursor_emulate_move_absolute 1%Z 7%Z 1%float 0.125%float 34%Z]).
Proof.
  rewrite (handle_axis_x_only float binary64 sample_rc_plain sample_tablet
             (mk_axis_event WLR_TABLET_TOOL_TYPE_ERASER 1%Z 0.9%float
                0.75%float 34%Z) eq_refl ltac:(discriminate) eq_refl).
  reflexivity.
Defined.

Lemma updated_record_idem {F : Type} (tablet : drawing_tablet F)
    (ev : wlr_tablet_tool_axis_event F) :
  updated_record (updated_record tablet ev) ev = updated_record tablet ev.
Proof.
  unfold updated_record. cbn [dt_x dt_y dt_seat dt_tablet].
  destruct (Z.land (updated_axes ev) WLR_TABLET_TOOL_AXIS_X =? 0)%Z;
    destruct (Z.land (updated_axes ev) WLR_TABLET_TOOL_AXIS_Y =? 0)%Z;
    reflexivity.
Qed.

(** X4: delivering the same axis event a second time changes nothing
    more: the record stays as the first delivery left it and the same
    call, if any, is made again. *)
Theorem handle_axis_idempotent :
  forall (F : Type) (D : Double F) (rc : tablet_config F)
         (tablet : drawing_tablet F) (ev : wlr_tablet_tool_axis_event F),
    handle_axis rc (fst (handle_axis rc tablet ev)) ev = handle_axis rc tablet ev.
Proof.
  intros F D rc tablet ev.
  destruct (tool_supports_absolute_motion (axis_tool_type ev)) eqn:Hs.
  2:{ rewrite !handle_axis_silent by (left; exact Hs). reflexivity. }
  destruct (Z.eq_dec (Z.land (updated_axes ev)
              (Z.lor WLR_TABLET_TOOL_AXIS_X WLR_TABLET_TOOL_AXIS_Y)) 0) as [Hm|Hm].
  { rewrite !handle_axis_silent by (right; exact Hm). reflexivity. }
  rewrite (handle_axis_emits rc tablet ev Hs Hm). cbn [fst].
  rewrite (handle_axis_emits rc (updated_record tablet ev) ev Hs Hm).
  rewrite updated_record_idem. reflexivity.
Qed.

(** X5: partial updates add up. An event that reports only x followed by
    an event that reports only y leaves the record, and makes the last
    call, exactly as one event that reports that x and that y together at
    the time of the second. *)
Theorem handle_axis_partial_updates_compose :
  forall (F : Type) (D : Double F) (rc : tablet_config F)
         (tablet : drawing_tablet F)
         (evx evy : wlr_tablet_tool_axis_event F),
    tool_supports_absolute_motion (axis_tool_type evx) = true ->
    tool_supports_absolute_motion (axis_tool_type evy) = true ->
    Z.land (updated_axes evx) WLR_TABLET_TOOL_AXIS_X <> 0%Z ->
    Z.land (updated_axes evx) WLR_TABLET_TOOL_AXIS_Y = 0%Z ->
    Z.land (updated_axes evy) WLR_TABLET_TOOL_AXIS_X = 0%Z ->
    Z.land (updated_axes evy) WLR_TABLET_TOOL_AXIS_Y <> 0%Z ->
    handle_axis rc (fst (handle_axis rc tablet evx)) evy
    = handle_axis rc tablet
        (mk_axis_event (axis_tool_type evy)
           (Z.lor WLR_TABLET_TOOL_AXIS_X WLR_TABLET_TOOL_AXIS_Y)
           (axis_x evx) (axis_y evy) (axis_time_msec evy)).
Proof.
  intros F D rc tablet evx evy Hsx Hsy Hxx Hxy Hyx Hyy.
  assert (Hmx : Z.land (updated_axes evx)
                  (Z.lor WLR_TABLET_TOOL_AXIS_X WLR_TABLET_TOOL_AXIS_Y) <> 0%Z)
    by (rewrite axis_mask_xy; tauto).
  assert (Hmy : Z.land (updated_axes evy)
                  (Z.lor WLR_TABLET_TOOL_AXIS_X WLR_TABLET_TOOL_AXIS_Y) <> 0%Z)
    by (rewrite axis_mask_xy; tauto).
  rewrite (handle_axis_emits rc tablet evx Hsx Hmx). cbn [fst].
  rewrite (handle_axis_emits rc (updated_record tablet evx) evy Hsy Hmy).
  rewrite handle_axis_emits
    by first [exact Hsy | vm_compute; discriminate].
  assert (Hrec : updated_record (updated_record tablet evx) evy
                 = updated_record tablet
                     (mk_axis_event (axis_tool_type evy)
                        (Z.lor WLR_TABLET_TOOL_AXIS_X WLR_TABLET_TOOL_AXIS_Y)
                        (axis_x evx) (axis_y evy) (axis_time_msec evy))).
  { unfold updated_record.
    cbn [dt_x dt_y dt_seat dt_tablet updated_axes axis_x axis_y].
    rewrite Hxy, Hyx.
    apply Z.eqb_neq in Hxx. apply Z.eqb_neq in Hyy. rewrite Hxx, Hyy.
    reflexivity. }
  rewrite Hrec. reflexivity.
Qed.

Lemma handle_axis_partial_updates_compose_witness :
  handle_axis sample_rc
    (fst (handle_axis sample_rc sample_tablet
            (mk_axis_event WLR_TABLET_TOOL_TYPE_PEN 1%Z 0.3%float 0.9%float 32%Z)))
    sample_y_event
  = handle_axis sample_rc sample_tablet
      (mk_axis_event WLR_TABLET_TOOL_TYPE_PEN 3%Z 0.3%float 0.75%float 33%Z).
Proof.
  apply (handle_axis_partial_updates_compose float binary64 sample_rc
           sample_tablet
           (mk_axis_event WLR_TABLET_TOOL_TYPE_PEN 1%Z 0.3%float 0.9%float 32%Z)
           sample_y_event);
    try reflexivity; discriminate.
Defined.

(** X6: with no active area in force (the all-zero area, or an unknown
    physical size) and no rotation, the position passed to
    [cursor_emulate_move_absolute] is the stored position itself, with no
    arithmetic applied to it. *)
Theorem handle_axis_passthrough :
  forall (F : Type) (D : Double F) (rc : tablet_config F)
         (tablet : drawing_tablet F) (ev : wlr_tablet_tool_axis_event F),
    tool_supports_absolute_motion (axis_tool_type ev) = true ->
    Z.land (updated_axes ev)
      (Z.lor WLR_TABLET_TOOL_AXIS_X WLR_TABLET_TOOL_AXIS_Y) <> 0%Z ->
    area_disabled (width_mm (dt_tablet tablet)) (height_mm (dt_tablet tablet))
      (rc_box rc) = true ->
    rc_rotation rc = LAB_ROTATE_NONE ->
    snd (handle_axis rc tablet ev)
    = [cursor_emulate_move_absolute (dt_seat tablet) (base (dt_tablet tablet))
         (dt_x (fst (handle_axis rc tablet ev)))
         (dt_y (fst (handle_axis rc tablet ev)))
         (axis_time_msec ev)].
Proof.
  intros F D rc tablet ev Hs Hm Hd Hr.
  rewrite (handle_axis_emits rc tablet ev Hs Hm). cbn [fst snd].
  unfold emitted_position. rewrite Hr.
  assert (Ht : dt_tablet (updated_record tablet ev) = dt_tablet tablet)
    by reflexivity.
  rewrite Ht, (adjust_disabled _ _ _ _ Hd). reflexivity.
Qed.

Lemma handle_axis_passthrough_witness :
  snd (handle_axis
         (mk_tablet_config (mk_fbox 0%float 0%float 0%float 0%float)
            LAB_ROTATE_NONE)
         sample_tablet sample_y_event)
  = [cursor_emulate_move_absolute 1%Z 7%Z 0.5%float 0.75%float 33%Z].
Proof.
  rewrite (handle_axis_passthrough float binary64
             (mk_tablet_config (mk_fbox 0%float 0%float 0%float 0%float)
                LAB_ROTATE_NONE)
             sample_tablet sample_y_event eq_refl ltac:(discriminate)
             eq_refl eq_refl).
  reflexivity.
Defined.

(** * Further properties of the geometry transform *)

(** X7: rotations compose as their angles add. In exact arithmetic,
    rotating by [r1] and then by [r2] is rotating by the sum of the two
    angles, so the order of two rotations does not matter and the
    rotations by 90 and by 270 degrees undo each other. In any arithmetic,
    binary64 included, two quarter turns in the same direction are the
    half turn, coordinate for coordinate. *)
Theorem adjust_for_rotation_compose :
  (forall (r1 r2 : rotation) (p : Q * Q),
      pt_eq (adjust_for_rotation r2 (adjust_for_rotation r1 p))
            (adjust_for_rotation (rotation_sum r1 r2) p))
  /\ (forall (r1 r2 : rotation) (p : Q * Q),
        pt_eq (adjust_for_rotation r2 (adjust_for_rotation r1 p))
              (adjust_for_rotation r1 (adjust_for_rotation r2 p)))
  /\ (forall p : Q * Q,
        pt_eq (adjust_for_rotation LAB_ROTATE_270
                 (adjust_for_rotation LAB_ROTATE_90 p)) p)
  /\ (forall (F : Type) (D : Double F) (p : F * F),
        adjust_for_rotation LAB_ROTATE_90 (adjust_for_rotation LAB_ROTATE_90 p)
        = adjust_for_rotation LAB_ROTATE_180 p
        /\ adjust_for_rotation LAB_ROTATE_270
             (adjust_for_rotation LAB_ROTATE_270 p)
           = adjust_for_rotation LAB_ROTATE_180 p).
Proof.
  split; [|split; [|split]].
  - intros r1 r2 [x y]. unfold pt_eq.
    destruct r1, r2; cbn; split; ring.
  - intros r1 r2 [x y]. unfold pt_eq.
    destruct r1, r2; cbn; split; ring.
  - intros [x y]. unfold pt_eq. cbn. split; ring.
  - intros F D [x y]. split; reflexivity.
Qed.



Lemma exact_rescale_edges (t o s : Q) :
  ~ t == 0 -> ~ s == 0 ->
  rescale t o s (o / t) == 0 /\ rescale t o s ((o + s) / t) == 1.
Proof.
  intros Ht Hs. rewrite !exact_rescale by assumption.
  split; field; auto.
Qed.

Lemma exact_rescale_mono (t o s v1 v2 : Q) :
  0 < t -> 0 < s -> v1 < v2 -> rescale t o s v1 < rescale t o s v2.
Proof.
  intros Ht Hs Hv. rewrite !exact_rescale by lra.
  assert (Hpos : 0 < ((v2 - v1) * t) / s).
  { apply Qlt_shift_div_l; [exact Hs|].
    assert (0 < (v2 - v1) * t) by (apply Qmult_lt_0_compat; lra). lra. }
  assert (Heq : (v2 * t - o) / s == (v1 * t - o) / s + ((v2 - v1) * t) / s)
    by (field; lra).
  rewrite Heq. lra.
Qed.

(** X9: in exact arithmetic, on an adjusted axis the near edge of the
    configured rectangle is sent to 0 and its far edge to 1; for a
    positive physical size and a positive resolved size the rescaling
    keeps the strict order of coordinates. In binary64 both hold only up
    to rounding: with the area (70, 0, 30, 0) on a width of 100 mm the far
    edge (70 + 30) / 100 = 1 is sent to 1.0000000000000002, and with the
    area (10, 0, 80, 0) the neighbouring coordinates 0.201 and
    0.20100000000000004 are both sent to 0.12625000000000003. *)
Theorem adjust_for_tablet_area_edges_exact :
  (forall (tw th : Q) (box : wlr_fbox Q) (x y : Q),
      area_disabled tw th box = false ->
      let w := resolved_size tw (fbox_x box) (fbox_width box) in
      let h := resolved_size th (fbox_y box) (fbox_height box) in
      (fits tw (fbox_x box) w = true -> ~ w == 0 ->
       fst (adjust_for_tablet_area tw th box (fbox_x box / tw, y)) == 0
       /\ fst (adjust_for_tablet_area tw th box ((fbox_x box + w) / tw, y)) == 1
       /\ (0 < tw -> 0 < w -> forall x', x < x' ->
           fst (adjust_for_tablet_area tw th box (x, y))
           < fst (adjust_for_tablet_area tw th box (x', y))))
      /\ (fits th (fbox_y box) h = true -> ~ h == 0 ->
          snd (adjust_for_tablet_area tw th box (x, fbox_y box / th)) == 0
          /\ snd (adjust_for_tablet_area tw th box (x, (fbox_y box + h) / th)) == 1
          /\ (0 < th -> 0 < h -> forall y', y < y' ->
              snd (adjust_for_tablet_area tw th box (x, y))
              < snd (adjust_for_tablet_area tw th box (x, y')))))
  /\ (((fbox_x edge_box
        + resolved_size 100%float (fbox_x edge_box) (fbox_width edge_box))
       / 100%float)%D = 1%float
      /\ fst (adjust_for_tablet_area 100%float 100%float edge_box
                (1%float, 0.5%float))
         = 1.0000000000000002%float
      /\ PrimFloat.ltb 0.201%float 0.20100000000000004%float = true
      /\ fst (adjust_for_tablet_area 100%float 100%float
                (mk_fbox 10%float 0%float 80%float 0%float)
                (0.201%float, 0.5%float))
         = 0.12625000000000003%float
      /\ fst (adjust_for_tablet_area 100%float 100%float
                (mk_fbox 10%float 0%float 80%float 0%float)
                (0.20100000000000004%float, 0.5%float))
         = 0.12625000000000003%float).
Proof.
  split; [|repeat split; reflexivity].
  intros tw th box x y Hd w h.
  assert (Htw : ~ tw == 0).
  { apply exact_dnot_false. unfold area_disabled in Hd.
    apply orb_false_iff in Hd as [Hd _].
    apply orb_false_iff in Hd as [_ Hd]. exact Hd. }
  assert (Hth : ~ th == 0).
  { apply exact_dnot_false. unfold area_disabled in Hd.
    apply orb_false_iff in Hd as [_ Hd]. exact Hd. }
  split.
  - intros Hf Hw.
    rewrite !(adjust_enabled_fst tw th box _ _ Hd). cbv zeta. fold w.
    rewrite Hf.
    destruct (exact_rescale_edges tw (fbox_x box) w Htw Hw) as [H0 H1].
    split; [exact H0|]. split; [exact H1|].
    intros Hpt Hpw x' Hx.
    rewrite !(adjust_enabled_fst tw th box _ _ Hd). cbv zeta. fold w.
    rewrite Hf. apply exact_rescale_mono; assumption.
  - intros Hf Hh.
    rewrite !(adjust_enabled_snd tw th box _ _ Hd). cbv zeta. fold h.
    rewrite Hf.
    destruct (exact_rescale_edges th (fbox_y box) h Hth Hh) as [H0 H1].
    split; [exact H0|]. split; [exact H1|].
    intros Hpt Hph y' Hy.
    rewrite !(adjust_enabled_snd tw th box _ _ Hd). cbv zeta. fold h.
    rewrite Hf. apply exact_rescale_mono; assumption.
Qed.

Lemma adjust_for_tablet_area_edges_exact_witness :
  fst (adjust_for_tablet_area 100 50 (mk_fbox 10 5 80 0) (10 / 100, 1 # 2)) == 0
  /\ fst (adjust_for_tablet_area 100 50 (mk_fbox 10 5 80 0)
            ((10 + resolved_size 100 10 80) / 100, 1 # 2)) == 1
  /\ fst (adjust_for_tablet_area 100 50 (mk_fbox 10 5 80 0) (1 # 4, 1 # 2))
     < fst (adjust_for_tablet_area 100 50 (mk_fbox 10 5 80 0) (3 # 4, 1 # 2)).
Proof.
  assert (Hd : area_disabled 100 50 (mk_fbox 10 5 80 0) = false) by reflexivity.
  destruct adjust_for_tablet_area_edges_exact as [Hgen _].
  destruct (Hgen 100 50 (mk_fbox 10 5 80 0) (1 # 4) (1 # 2) Hd) as [Hx _].
  destruct (Hx eq_refl ltac:(discriminate)) as (H0 & H1 & Hmono).
  split; [exact H0|]. split; [exact H1|].
  apply Hmono; reflexivity.
Defined.

(** X10: in exact arithmetic, an axis whose area starts at offset 0 and
    whose size is 0 (to the edge) or the whole physical size is returned
    as it came; so an area that crops one axis only leaves the other
    coordinate alone. *)
Theorem adjust_for_tablet_area_full_axis_exact :
  forall (tw th : Q) (box : wlr_fbox Q) (x y : Q),
    area_disabled tw th box = false ->
    (fbox_x box == 0 -> fbox_width box == 0 \/ fbox_width box == tw ->
     fst (adjust_for_tablet_area tw th box (x, y)) == x)
    /\ (fbox_y box == 0 -> fbox_height box == 0 \/ fbox_height box == th ->
        snd (adjust_for_tablet_area tw th box (x, y)) == y).
Proof.
  intros tw th box x y Hd.
  assert (Htw : ~ tw == 0).
  { apply exact_dnot_false. unfold area_disabled in Hd.
    apply orb_false_iff in Hd as [Hd _].
    apply orb_false_iff in Hd as [_ Hd]. exact Hd. }
  assert (Hth : ~ th == 0).
  { apply exact_dnot_false. unfold area_disabled in Hd.
    apply orb_false_iff in Hd as [_ Hd]. exact Hd. }
  assert (Haxis : forall t o s v : Q,
             ~ t == 0 -> o == 0 -> s == 0 \/ s == t ->
             (if fits t o (resolved_size t o s)
              then rescale t o (resolved_size t o s) v else v) == v).
  { intros t o s v Ht Ho Hs.
    assert (Hr : resolved_size t o s == t).
    { destruct (Qeq_dec s 0) as [Hz|Hnz].
      - rewrite (exact_resolved_zero t o s Hz). lra.
      - rewrite (exact_resolved_nonzero t o s Hnz).
        destruct Hs as [Hs|Hs]; [contradiction|exact Hs]. }
    remember (resolved_size t o s) as e eqn:He. clear He.
    assert (Hf : fits t o e = true) by (apply exact_fits; lra).
    rewrite Hf. rewrite exact_rescale by lra.
    assert (Hne : ~ e == 0) by lra.
    apply (Qmult_inj_r _ _ e Hne).
    assert (Hq : (v * t - o) / e * e == v * t - o) by (field; exact Hne).
    rewrite Hq.
    assert (Hve : v * e == v * t) by (rewrite Hr; reflexivity).
    rewrite Hve. lra. }
  split.
  - intros Hx Hw. rewrite (adjust_enabled_fst tw th box x y Hd). cbv zeta.
    apply Haxis; assumption.
  - intros Hy Hh. rewrite (adjust_enabled_snd tw th box x y Hd). cbv zeta.
    apply Haxis; assumption.
Qed.

Lemma adjust_for_tablet_area_full_axis_exact_witness :
  fst (adjust_for_tablet_area 100 50 (mk_fbox 0 5 0 40) (1 # 3, 1 # 2)) == 1 # 3.
Proof.
  assert (Hd : area_disabled 100 50 (mk_fbox 0 5 0 40) = false) by reflexivity.
  destruct (adjust_for_tablet_area_full_axis_exact 100 50 (mk_fbox 0 5 0 40)
              (1 # 3) (1 # 2) Hd) as [Hx _].
  apply Hx; [reflexivity | left; reflexivity].
Defined.

(** In binary64 the same axis can move in the last place: with the area
    (0, 5, 0, 40) on a tablet of 100 mm by 50 mm, x = 0.007 comes back as
    0.007000000000000001. *)
Lemma full_axis_binary64_rounding :
  fst (adjust_for_tablet_area 100%float 50%float
         (mk_fbox 0%float 5%float 0%float 40%float) (0.007%float, 0.5%float))
  = 0.007000000000000001%float.
Proof. reflexivity. Qed.

(** * Further properties of the life of a device record *)

Lemma lookup_delete_other {F : Type} (dev dev' : wlr_input_device)
    (rs : list (wlr_input_device * drawing_tablet F)) :
  dev' <> dev ->
  lookup_record dev' (delete_record dev rs) = lookup_record dev' rs.
Proof.
  intros Hne. induction rs as [|[d t] rs IH]; [reflexivity|].
  cbn. destruct (d =? dev)%Z eqn:Hd.
  - apply Z.eqb_eq in Hd. subst d.
    destruct (dev =? dev')%Z eqn:Hd'; [|exact IH].
    apply Z.eqb_eq in Hd'. congruence.
  - cbn. rewrite IH. reflexivity.
Qed.

Lemma delete_record_absent {F : Type} (dev : wlr_input_device)
    (rs : list (wlr_input_device * drawing_tablet F)) :
  lookup_record dev rs = None -> delete_record dev rs = rs.
Proof.
  induction rs as [|[d t] rs IH]; [reflexivity|].
  cbn. destruct (d =? dev)%Z; [discriminate|].
  intros Hl. rewrite (IH Hl). reflexivity.
Qed.

Lemma unlink_absent (l : listener) (ls : list listener) :
  existsb (listener_eqb l) ls = false -> unlink l ls = ls.
Proof.
  unfold unlink. induction ls as [|a ls IH]; [reflexivity|].
  cbn. intros Hf. apply orb_false_iff in Hf as [Ha Hls].
  rewrite Ha. cbn. rewrite (IH Hls). reflexivity.
Qed.

Lemma listener_eqb_other_dev (dev dev' : wlr_input_device) (h h' : handler) :
  dev' <> dev -> listener_eqb (dev, h) (dev', h') = false.
Proof.
  intros Hne. unfold listener_eqb. cbn.
  destruct (dev =? dev')%Z eqn:Hd; [|reflexivity].
  apply Z.eqb_eq in Hd. congruence.
Qed.

Lemma destroyed_frame {F : Type} (dev dev' : wlr_input_device) (s : server F) :
  dev' <> dev ->
  lookup_record dev' (records (destroyed dev s)) = lookup_record dev' (records s)
  /\ forall h, is_linked (dev', h) (destroyed dev s) = is_linked (dev', h) s.
Proof.
  intros Hne. split.
  - apply lookup_delete_other. exact Hne.
  - intros h. unfold is_linked, destroyed. cbn [linked].
    rewrite !existsb_unlink_other by (apply listener_eqb_other_dev; exact Hne).
    reflexivity.
Qed.

Lemma tablet_init_runs {F : Type} `{Double F} (st : seat)
    (wlr_device : wlr_tablet F) (s : server F) :
  lookup_record (base wlr_device) (records s) = None ->
  (forall h, is_linked (base wlr_device, h) s = false) ->
  tablet_init st wlr_device s
  = Some (tt,
          mk_server
            ((base wlr_device, mk_drawing_tablet st wlr_device dzero dzero)
               :: records s)
            (listeners_of (base wlr_device) ++ linked s),
          [wlr_log log_setting_up; wlr_log log_dimensions]).
Proof.
  intros Hrec Hq. unfold tablet_init. rewrite Hrec.
  unfold bind, emit, set_record, CONNECT_SIGNAL, do_wl_signal_add.
  pose proof (Hq h_axis) as H1. pose proof (Hq h_proximity) as H2.
  pose proof (Hq h_tip) as H3. pose proof (Hq h_button) as H4.
  pose proof (Hq h_destroy) as H5. unfold is_linked in *.
  cbn [records linked existsb].
  rewrite ?listener_eqb_same_dev. cbn [handler_eqb orb].
  rewrite H1. cbn [records linked existsb].
  rewrite ?listener_eqb_same_dev. cbn [handler_eqb orb].
  rewrite H2. cbn [records linked existsb].
  rewrite ?listener_eqb_same_dev. cbn [handler_eqb orb].
  rewrite H3. cbn [records linked existsb].
  rewrite ?listener_eqb_same_dev. cbn [handler_eqb orb].
  rewrite H4. cbn [records linked existsb].
  rewrite ?listener_eqb_same_dev. cbn [handler_eqb orb].
  rewrite H5. cbn [records linked existsb app].
  rewrite (delete_record_absent _ _ Hrec). reflexivity.
Qed.

Section RunFacts.
Context {F : Type} `{Double F}.
Variable tablet_get_mapped_button : Z -> Z.

(** What a callback that returns has done, by kind of event. *)
Lemma run_handler_cases (rc : tablet_config F) (dev : wlr_input_device)
    (e : event F) (s s' : server F) (tr : list (effect F)) :
  run_handler tablet_get_mapped_button rc dev e s = Some (tt, s', tr) ->
  match e with
  | ev_axis ev =>
      exists t, lookup_record dev (records s) = Some t
                /\ s' = mk_server ((dev, fst (handle_axis rc t ev))
                                     :: delete_record dev (records s)) (linked s)
                /\ tr = snd (handle_axis rc t ev)
  | ev_proximity ev => s' = s /\ tr = handle_proximity ev
  | ev_tip ev =>
      exists t, lookup_record dev (records s) = Some t
                /\ s' = s /\ tr = handle_tip tablet_get_mapped_button t ev
  | ev_button ev =>
      exists t, lookup_record dev (records s) = Some t
                /\ s' = s /\ tr = handle_button tablet_get_mapped_button t ev
  | ev_destroy => s' = destroyed dev s /\ tr = destroy_trace dev
  end.
Proof.
  destruct e as [ev|ev|ev|ev|]; unfold run_handler.
  - unfold bind, get_record, set_record, emit.
    destruct (lookup_record dev (records s)) as [t|]; [|discriminate].
    destruct (handle_axis rc t ev) as [t' eff] eqn:Hh. cbn.
    intros Hr. injection Hr as <- <-. exists t. rewrite Hh.
    repeat split; reflexivity.
  - unfold emit. intros Hr. injection Hr as <- <-. split; reflexivity.
  - unfold bind, get_record, emit.
    destruct (lookup_record dev (records s)) as [t|]; [|discriminate].
    intros Hr. injection Hr as <- <-. exists t. repeat split; reflexivity.
  - unfold bind, get_record, emit.
    destruct (lookup_record dev (records s)) as [t|]; [|discriminate].
    intros Hr. injection Hr as <- <-. exists t. repeat split; reflexivity.
  - intros Hr. apply handle_destroy_inv in Hr. injection Hr as -> ->.
    split; reflexivity.
Qed.

Lemma wl_signal_emit_cases (rc : tablet_config F) (dev : wlr_input_device)
    (e : event F) (s s' : server F) (tr : list (effect F)) :
  wl_signal_emit tablet_get_mapped_button rc dev e s = Some (tt, s', tr) ->
  (is_linked (dev, signal_of e) s = false /\ s' = s /\ tr = [])
  \/ (is_linked (dev, signal_of e) s = true
      /\ exists tr', tr = notify (dev, signal_of e) :: tr'
                     /\ run_handler tablet_get_mapped_button rc dev e s
                        = Some (tt, s', tr')).
Proof.
  unfold wl_signal_emit.
  destruct (is_linked (dev, signal_of e) s).
  - unfold bind, emit.
    destruct (run_handler tablet_get_mapped_button rc dev e s)
      as [[[[] s1] t1]|]; [|discriminate].
    intros Hr. injection Hr as <- <-. right. split; [reflexivity|].
    exists t1. split; reflexivity.
  - intros Hr. injection Hr as <- <-. left. repeat split; reflexivity.
Qed.

Lemma handle_axis_keeps_identity (rc : tablet_config F)
    (t : drawing_tablet F) (ev : wlr_tablet_tool_axis_event F) :
  dt_seat (fst (handle_axis rc t ev)) = dt_seat t
  /\ dt_tablet (fst (handle_axis rc t ev)) = dt_tablet t.
Proof.
  destruct (tool_supports_absolute_motion (axis_tool_type ev)) eqn:Hs.
  2:{ rewrite handle_axis_silent by (left; exact Hs). split; reflexivity. }
  destruct (Z.eq_dec (Z.land (updated_axes ev)
              (Z.lor WLR_TABLET_TOOL_AXIS_X WLR_TABLET_TOOL_AXIS_Y)) 0) as [Hm|Hm].
  { rewrite handle_axis_silent by (right; exact Hm). split; reflexivity. }
  rewrite (handle_axis_emits rc t ev Hs Hm). split; reflexivity.
Qed.

Lemma handle_axis_calls (rc : tablet_config F)
    (t : drawing_tablet F) (ev : wlr_tablet_tool_axis_event F) :
  (emulation_calls (snd (handle_axis rc t ev)) <= 1)%nat.
Proof.
  destruct (tool_supports_absolute_motion (axis_tool_type ev)) eqn:Hs.
  2:{ rewrite handle_axis_silent by (left; exact Hs). cbn. lia. }
  destruct (Z.eq_dec (Z.land (updated_axes ev)
              (Z.lor WLR_TABLET_TOOL_AXIS_X WLR_TABLET_TOOL_AXIS_Y)) 0) as [Hm|Hm].
  { rewrite handle_axis_silent by (right; exact Hm). cbn. lia. }
  rewrite (handle_axis_emits rc t ev Hs Hm). cbn. lia.
Qed.

Lemma emulation_calls_app (t1 t2 : list (effect F)) :
  emulation_calls (t1 ++ t2) = (emulation_calls t1 + emulation_calls t2)%nat.
Proof.
  induction t1 as [|e t1 IH]; [reflexivity|].
  destruct e; cbn; rewrite IH; reflexivity.
Qed.

Lemma wl_signal_emit_calls (rc : tablet_config F) (dev : wlr_input_device)
    (e : event F) (s s' : server F) (tr : list (effect F)) :
  wl_signal_emit tablet_get_mapped_button rc dev e s = Some (tt, s', tr) ->
  (emulation_calls tr <= if is_pointer_event e then 1 else 0)%nat.
Proof.
  intros He. apply wl_signal_emit_cases in He.
  destruct He as [(_ & _ & ->)|(_ & tr' & -> & Hr)].
  - cbn. destruct (is_pointer_event e); lia.
  - apply run_handler_cases in Hr. cbn [emulation_calls].
    destruct e as [ev|ev|ev|ev|]; cbn [is_pointer_event].
    + destruct Hr as (t & _ & _ & ->). apply handle_axis_calls.
    + destruct Hr as [_ ->]. unfold handle_proximity.
      destruct (negb (tool_supports_absolute_motion (proximity_tool_type ev)));
        [destruct (proximity_state ev)|]; cbn; lia.
    + destruct Hr as (t & _ & _ & ->). unfold handle_tip.
      destruct (tablet_get_mapped_button BTN_TOOL_PEN =? 0)%Z; cbn; lia.
    + destruct Hr as (t & _ & _ & ->). unfold handle_button.
      destruct (tablet_get_mapped_button (button_code ev) =? 0)%Z; cbn; lia.
    + destruct Hr as [_ ->]. cbn. lia.
Qed.

(** A record that is there after an emission was there before, with the
    same seat and the same physical tablet. *)
Lemma wl_signal_emit_identity (rc : tablet_config F) (dev' dev : wlr_input_device)
    (e : event F) (s s' : server F) (tr : list (effect F))
    (t' : drawing_tablet F) :
  wl_signal_emit tablet_get_mapped_button rc dev' e s = Some (tt, s', tr) ->
  lookup_record dev (records s') = Some t' ->
  exists t, lookup_record dev (records s) = Some t
            /\ dt_seat t' = dt_seat t /\ dt_tablet t' = dt_tablet t.
Proof.
  intros He Hl. apply wl_signal_emit_cases in He.
  destruct He as [(_ & -> & _)|(_ & tr' & _ & Hr)].
  { exists t'. repeat split; [exact Hl]. }
  apply run_handler_cases in Hr.
  destruct e as [ev|ev|ev|ev|].
  - destruct Hr as (t0 & Ht0 & -> & _). cbn [records lookup_record] in Hl.
    destruct (dev' =? dev)%Z eqn:Hd.
    + apply Z.eqb_eq in Hd. subst dev'. injection Hl as <-.
      exists t0. split; [exact Ht0|]. apply handle_axis_keeps_identity.
    + apply Z.eqb_neq in Hd. rewrite lookup_delete_other in Hl by congruence.
      exists t'. repeat split; [exact Hl].
  - destruct Hr as [-> _]. exists t'. repeat split; [exact Hl].
  - destruct Hr as (_ & _ & -> & _). exists t'. repeat split; [exact Hl].
  - destruct Hr as (_ & _ & -> & _). exists t'. repeat split; [exact Hl].
  - destruct Hr as [-> _]. unfold destroyed in Hl. cbn [records] in Hl.
    destruct (Z.eq_dec dev dev') as [Hd|Hd].
    + subst dev'. rewrite lookup_delete_record in Hl. discriminate.
    + rewrite lookup_delete_other in Hl by exact Hd.
      exists t'. repeat split; [exact Hl].
Qed.

(** An emission from a consistent state returns, in a consistent state. *)
Lemma wl_signal_emit_safe (rc : tablet_config F) (dev : wlr_input_device)
    (e : event F) (s : server F) :
  consistent s ->
  exists s' tr,
    wl_signal_emit tablet_get_mapped_button rc dev e s = Some (tt, s', tr)
    /\ consistent s'.
Proof.
  intros Hc. unfold wl_signal_emit.
  destruct (is_linked (dev, signal_of e) s) eqn:Hl.
  2:{ exists s, []. split; [reflexivity|exact Hc]. }
  destruct (Hc dev) as [(t & Ht & Hall)|[_ Hq]];
    [|rewrite Hq in Hl; discriminate].
  unfold bind, emit.
  destruct e as [ev|ev|ev|ev|]; unfold run_handler.
  - unfold bind, get_record, set_record, emit. rewrite Ht.
    destruct (handle_axis rc t ev) as [t1 eff]. cbn.
    eexists. eexists. split; [reflexivity|].
    intros d. destruct (Z.eq_dec d dev) as [->|Hd].
    + left. exists t1. cbn [records lookup_record]. rewrite Z.eqb_refl.
      split; [reflexivity|exact Hall].
    + assert (Hlk : lookup_record d
                      (records (mk_server ((dev, t1)
                                  :: delete_record dev (records s)) (linked s)))
                    = lookup_record d (records s)).
      { cbn [records lookup_record].
        destruct (dev =? d)%Z eqn:Hdd;
          [apply Z.eqb_eq in Hdd; congruence|].
        apply lookup_delete_other. exact Hd. }
      unfold is_linked in *. cbn [linked]. rewrite Hlk. apply Hc.
  - unfold emit. eexists. eexists. split; [reflexivity|exact Hc].
  - unfold bind, get_record, emit. rewrite Ht.
    eexists. eexists. split; [reflexivity|exact Hc].
  - unfold bind, get_record, emit. rewrite Ht.
    eexists. eexists. split; [reflexivity|exact Hc].
  - rewrite (handle_destroy_runs dev s t Ht Hall).
    eexists. eexists. split; [reflexivity|].
    intros d. destruct (Z.eq_dec d dev) as [->|Hd].
    + right. split; [apply lookup_delete_record|apply destroyed_quiet].
    + destruct (destroyed_frame dev d s Hd) as [Hlk Hli].
      destruct (Hc d) as [(t0 & Ht0 & Hall0)|[Hn Hq0]].
      * left. exists t0. rewrite Hlk. split; [exact Ht0|].
        intros h. rewrite Hli. apply Hall0.
      * right. rewrite Hlk. split; [exact Hn|].
        intros h. rewrite Hli. apply Hq0.
Qed.

End RunFacts.

Lemma consistent_empty {F : Type} : consistent (mk_server (F := F) [] []).
Proof. intros d. right. split; [reflexivity|]. intros h. reflexivity. Qed.

Lemma unlink_cons (l a : listener) (ls : list listener) :
  unlink l (a :: ls) = if listener_eqb l a then unlink l ls else a :: unlink l ls.
Proof. unfold unlink. cbn. destruct (listener_eqb l a); reflexivity. Qed.

Lemma unlink_listeners_of (dev : wlr_input_device) (ls : list listener) :
  (forall h, existsb (listener_eqb (dev, h)) ls = false) ->
  unlink (dev, h_destroy) (unlink (dev, h_axis) (unlink (dev, h_proximity)
    (unlink (dev, h_button) (unlink (dev, h_tip) (listeners_of dev ++ ls)))))
  = ls.
Proof.
  intros Hq. unfold listeners_of. cbn [app].
  repeat (rewrite ?unlink_cons, ?listener_eqb_same_dev; cbn [handler_eqb]).
  rewrite (unlink_absent (dev, h_tip) ls) by apply Hq.
  rewrite (unlink_absent (dev, h_button) ls) by apply Hq.
  rewrite (unlink_absent (dev, h_proximity) ls) by apply Hq.
  rewrite (unlink_absent (dev, h_axis) ls) by apply Hq.
  rewrite (unlink_absent (dev, h_destroy) ls) by apply Hq.
  reflexivity.
Qed.

(** ** Creation of a record *)

(** X11: for a device without a record, in a consistent server state,
    [tablet_init] returns; it logs twice, allocates a record that holds
    the seat and the tablet with the stored position (0, 0), links the
    five listeners of the device, leaves the records and listeners of
    every other device as they were, and the state stays consistent. *)
Theorem tablet_init_fresh :
  forall (F : Type) (D : Double F) (st : seat) (wlr_device : wlr_tablet F)
         (s : server F),
    consistent s ->
    lookup_record (base wlr_device) (records s) = None ->
    exists s' : server F,
      tablet_init st wlr_device s
      = Some (tt, s', [wlr_log log_setting_up; wlr_log log_dimensions])
      /\ lookup_record (base wlr_device) (records s')
         = Some (mk_drawing_tablet st wlr_device dzero dzero)
      /\ (forall h, is_linked (base wlr_device, h) s' = true)
      /\ (forall d, d <> base wlr_device ->
            lookup_record d (records s') = lookup_record d (records s)
            /\ forall h, is_linked (d, h) s' = is_linked (d, h) s)
      /\ consistent s'.
Proof.
  intros F D st w s Hc Hrec.
  assert (Hq : forall h, is_linked (base w, h) s = false).
  { destruct (Hc (base w)) as [(t & Ht & _)|[_ Hq]]; [congruence|exact Hq]. }
  rewrite (tablet_init_runs st w s Hrec Hq).
  eexists. split; [reflexivity|].
  assert (Hself : forall h,
             is_linked (base w, h)
               (mk_server ((base w, mk_drawing_tablet st w dzero dzero)
                             :: records s)
                  (listeners_of (base w) ++ linked s)) = true).
  { intros h. unfold is_linked, listeners_of. cbn [linked app existsb].
    rewrite !listener_eqb_same_dev. destruct h; reflexivity. }
  assert (Hother : forall d, d <> base w ->
             lookup_record d
               (records (mk_server ((base w, mk_drawing_tablet st w dzero dzero)
                                      :: records s)
                           (listeners_of (base w) ++ linked s)))
             = lookup_record d (records s)
             /\ forall h,
                 is_linked (d, h)
                   (mk_server ((base w, mk_drawing_tablet st w dzero dzero)
                                 :: records s)
                      (listeners_of (base w) ++ linked s))
                 = is_linked (d, h) s).
  { intros d Hd. split.
    - cbn [records lookup_record].
      destruct (base w =? d)%Z eqn:Hbd; [|reflexivity].
      apply Z.eqb_eq in Hbd. congruence.
    - intros h. unfold is_linked, listeners_of. cbn [linked app existsb].
      rewrite !(listener_eqb_other_dev d (base w)) by congruence.
      reflexivity. }
  split; [cbn [records lookup_record]; rewrite Z.eqb_refl; reflexivity|].
  split; [exact Hself|]. split; [exact Hother|].
  intros d. destruct (Z.eq_dec d (base w)) as [->|Hd].
  - left. eexists. split; [|exact Hself].
    cbn [records lookup_record]. rewrite Z.eqb_refl. reflexivity.
  - destruct (Hother d Hd) as [Hlk Hli]. rewrite Hlk.
    destruct (Hc d) as [(t0 & Ht0 & Hall0)|[Hn Hq0]].
    + left. exists t0. split; [exact Ht0|]. intros h. rewrite Hli. apply Hall0.
    + right. split; [exact Hn|]. intros h. rewrite Hli. apply Hq0.
Qed.

Lemma tablet_init_fresh_witness :
  exists s' : server float,
    tablet_init 1%Z (mk_wlr_tablet 7%Z 100%float 50%float) empty_server
    = Some (tt, s', [wlr_log log_setting_up; wlr_log log_dimensions])
    /\ lookup_record 7%Z (records s') = Some fresh_tablet
    /\ (forall h, is_linked (7%Z, h) s' = true)
    /\ (forall d, d <> 7%Z ->
          lookup_record d (records s') = lookup_record d (records empty_server)
          /\ forall h, is_linked (d, h) s' = is_linked (d, h) empty_server)
    /\ consistent s'.
Proof.
  apply (tablet_init_fresh float binary64 1%Z
           (mk_wlr_tablet 7%Z 100%float 50%float) empty_server).
  - exact consistent_empty.
  - reflexivity.
Defined.

(** X12: creation and destruction undo each other. From a consistent
    state in which the device has no record, [tablet_init] followed by the
    device's destroy signal returns the server to exactly the state it
    started from. *)
Theorem tablet_init_destroy_round_trip :
  forall (F : Type) (D : Double F) (tablet_get_mapped_button : Z -> Z)
         (rc : tablet_config F) (st : seat) (wlr_device : wlr_tablet F)
         (s : server F),
    consistent s ->
    lookup_record (base wlr_device) (records s) = None ->
    exists (s1 : server F) (tr1 tr2 : list (effect F)),
      tablet_init st wlr_device s = Some (tt, s1, tr1)
      /\ wl_signal_emit tablet_get_mapped_button rc (base wlr_device)
           ev_destroy s1
         = Some (tt, s, tr2).
Proof.
  intros F D getb rc st w s Hc Hrec.
  assert (Hq : forall h, is_linked (base w, h) s = false).
  { destruct (Hc (base w)) as [(t & Ht & _)|[_ Hq]]; [congruence|exact Hq]. }
  rewrite (tablet_init_runs st w s Hrec Hq).
  eexists. eexists. eexists. split; [reflexivity|].
  unfold wl_signal_emit. cbn [signal_of].
  assert (Hall : forall h,
             is_linked (base w, h)
               (mk_server ((base w, mk_drawing_tablet st w dzero dzero)
                             :: records s)
                  (listeners_of (base w) ++ linked s)) = true).
  { intros h. unfold is_linked, listeners_of. cbn [linked app existsb].
    rewrite !listener_eqb_same_dev. destruct h; reflexivity. }
  rewrite Hall. unfold bind, emit. cbn [run_handler].
  rewrite (handle_destroy_runs (base w) _ (mk_drawing_tablet st w dzero dzero)).
  - unfold destroyed. cbn [records linked delete_record].
    rewrite Z.eqb_refl, (delete_record_absent _ _ Hrec).
    rewrite (unlink_listeners_of (base w) (linked s) Hq).
    destruct s as [rs ls]. reflexivity.
  - cbn [records lookup_record]. rewrite Z.eqb_refl. reflexivity.
  - exact Hall.
Qed.

Lemma second_tablet_server_consistent : consistent second_tablet_server.
Proof.
  intros d. destruct (Z.eq_dec d 8) as [->|Hd].
  - left. exists second_tablet. split; [reflexivity|].
    intros h. destruct h; reflexivity.
  - right.
    assert (H8 : (8 =? d)%Z = false) by (apply Z.eqb_neq; congruence).
    split.
    + unfold second_tablet_server. cbn [records lookup_record].
      rewrite H8. reflexivity.
    + intros h. unfold is_linked, second_tablet_server, listeners_of.
      cbn [linked existsb].
      rewrite !(listener_eqb_other_dev d 8%Z) by congruence. reflexivity.
Qed.

Lemma tablet_init_destroy_round_trip_witness :
  exists (s1 : server float) (tr1 tr2 : list (effect float)),
    tablet_init 1%Z (mk_wlr_tablet 7%Z 100%float 50%float) second_tablet_server
    = Some (tt, s1, tr1)
    /\ wl_signal_emit map_tip_to_left sample_rc 7%Z ev_destroy s1
       = Some (tt, second_tablet_server, tr2).
Proof.
  apply (tablet_init_destroy_round_trip float binary64 map_tip_to_left
           sample_rc 1%Z (mk_wlr_tablet 7%Z 100%float 50%float)
           second_tablet_server).
  - exact second_tablet_server_consistent.
  - reflexivity.
Defined.

(** ** Destruction touches one device *)

(** X13: the destroy signal of one device leaves the record and the
    listeners of every other device as they were. *)
Theorem handle_destroy_frame :
  forall (F : Type) (D : Double F) (tablet_get_mapped_button : Z -> Z)
         (rc : tablet_config F) (s s' : server F) (dev d : wlr_input_device)
         (tr : list (effect F)),
    wl_signal_emit tablet_get_mapped_button rc dev ev_destroy s
    = Some (tt, s', tr) ->
    d <> dev ->
    lookup_record d (records s') = lookup_record d (records s)
    /\ forall h, is_linked (d, h) s' = is_linked (d, h) s.
Proof.
  intros F D getb rc s s' dev d tr He Hd.
  apply wl_signal_emit_cases in He.
  destruct He as [(_ & -> & _)|(_ & tr' & _ & Hr)].
  - split; reflexivity.
  - apply run_handler_cases in Hr. destruct Hr as [-> _].
    apply destroyed_frame. exact Hd.
Qed.

Lemma handle_destroy_frame_witness :
  wl_signal_emit map_tip_to_left sample_rc 7%Z ev_destroy two_tablet_server
  = Some (tt, second_tablet_server, notify (7%Z, h_destroy) :: destroy_trace 7%Z)
  /\ lookup_record 8%Z (records second_tablet_server)
     = lookup_record 8%Z (records two_tablet_server)
  /\ forall h, is_linked (8%Z, h) second_tablet_server
               = is_linked (8%Z, h) two_tablet_server.
Proof.
  assert (He : wl_signal_emit map_tip_to_left sample_rc 7%Z ev_destroy
                 two_tablet_server
               = Some (tt, second_tablet_server,
                       notify (7%Z, h_destroy) :: destroy_trace 7%Z))
    by reflexivity.
  split; [exact He|].
  apply (handle_destroy_frame float binary64 map_tip_to_left sample_rc
           two_tablet_server second_tablet_server 7%Z 8%Z _ He).
  discriminate.
Defined.

(** ** Runs of the event loop *)

(** X14: from a consistent server state every sequence of emissions, on
    any devices and in any order, runs to completion and ends in a
    consistent state: no callback runs on a released record, no listener
    is unlinked twice, and no record is released twice. *)
Theorem run_never_undefined :
  forall (F : Type) (D : Double F) (tablet_get_mapped_button : Z -> Z)
         (evs : list (tablet_config F * wlr_input_device * event F))
         (s : server F),
    consistent s ->
    exists (s' : server F) (tr : list (effect F)),
      run tablet_get_mapped_button evs s = Some (tt, s', tr)
      /\ consistent s'.
Proof.
  intros F D getb evs. induction evs as [|[[rc dev] e] evs IH]; intros s Hc.
  - exists s, []. split; [reflexivity|exact Hc].
  - destruct (wl_signal_emit_safe getb rc dev e s Hc) as (s1 & t1 & He & Hc1).
    destruct (IH s1 Hc1) as (s2 & t2 & Hr & Hc2).
    exists s2, (t1 ++ t2). split; [|exact Hc2].
    cbn [run]. unfold bind. rewrite He, Hr. reflexivity.
Qed.

Lemma two_tablet_server_consistent : consistent two_tablet_server.
Proof.
  intros d. destruct (Z.eq_dec d 8) as [->|H8]; [|destruct (Z.eq_dec d 7) as [->|H7]].
  - left. exists second_tablet. split; [reflexivity|].
    intros h. destruct h; reflexivity.
  - left. exists fresh_tablet. split; [reflexivity|].
    intros h. destruct h; reflexivity.
  - right.
    assert (E8 : (8 =? d)%Z = false) by (apply Z.eqb_neq; congruence).
    assert (E7 : (7 =? d)%Z = false) by (apply Z.eqb_neq; congruence).
    split.
    + unfold two_tablet_server. cbn [records lookup_record].
      rewrite E8, E7. reflexivity.
    + intros h. unfold is_linked, two_tablet_server, listeners_of.
      cbn [linked existsb app].
      rewrite !(listener_eqb_other_dev d 8%Z) by congruence.
      rewrite !(listener_eqb_other_dev d 7%Z) by congruence. reflexivity.
Qed.

Lemma run_never_undefined_witness :
  exists (s' : server float) (tr : list (effect float)),
    run map_tip_to_left sample_events two_tablet_server = Some (tt, s', tr)
    /\ consistent s'.
Proof.
  apply (run_never_undefined float binary64 map_tip_to_left sample_events
           two_tablet_server).
  exact two_tablet_server_consistent.
Defined.

(** X15: while a record lives, no emission changes its seat or its
    physical tablet (identity and dimensions), and a record never appears
    by emission: a record found after a run was there before the run with
    the same seat and tablet. *)
Theorem run_keeps_record_identity :
  forall (F : Type) (D : Double F) (tablet_get_mapped_button : Z -> Z)
         (evs : list (tablet_config F * wlr_input_device * event F))
         (s s' : server F) (tr : list (effect F)) (dev : wlr_input_device)
         (t' : drawing_tablet F),
    run tablet_get_mapped_button evs s = Some (tt, s', tr) ->
    lookup_record dev (records s') = Some t' ->
    exists t, lookup_record dev (records s) = Some t
              /\ dt_seat t' = dt_seat t /\ dt_tablet t' = dt_tablet t.
Proof.
  intros F D getb evs.
  induction evs as [|[[rc d] e] evs IH]; intros s s' tr dev t' Hrun Hl.
  - cbn in Hrun. unfold ret in Hrun. injection Hrun as <- <-.
    exists t'. repeat split; [exact Hl].
  - cbn [run] in Hrun. unfold bind in Hrun.
    destruct (wl_signal_emit getb rc d e s) as [[[[] s1] t1]|] eqn:He;
      [|discriminate].
    destruct (run getb evs s1) as [[[[] s2] t2]|] eqn:Hr; [|discriminate].
    injection Hrun as <- <-.
    destruct (IH s1 s2 t2 dev t' Hr Hl) as (tm & Htm & Hs1 & Ht1).
    destruct (wl_signal_emit_identity getb rc d dev e s s1 t1 tm He Htm)
      as (t0 & Ht0 & Hs0 & Hw0).
    exists t0. split; [exact Ht0|]. split; congruence.
Qed.

Lemma run_keeps_record_identity_witness :
  run map_tip_to_left
    [(sample_rc, 7%Z, ev_axis sample_y_event);
     (sample_rc, 8%Z, ev_destroy)] two_tablet_server
  = Some (tt,
          mk_server [(7%Z, mk_drawing_tablet 1%Z
                            (mk_wlr_tablet 7%Z 100%float 50%float)
                            0%float 0.75%float)]
            (listeners_of 7%Z),
          [notify (7%Z, h_axis);
           cursor_emulate_move_absolute 1%Z 7%Z 0.25%float (-0.125)%float 33%Z;
           notify (8%Z, h_destroy)] ++ destroy_trace 8%Z)
  /\ exists t, lookup_record 7%Z (records two_tablet_server) = Some t
               /\ 1%Z = dt_seat t
               /\ mk_wlr_tablet 7%Z 100%float 50%float = dt_tablet t.
Proof.
  assert (Hrun : run map_tip_to_left
                   [(sample_rc, 7%Z, ev_axis sample_y_event);
                    (sample_rc, 8%Z, ev_destroy)] two_tablet_server
                 = Some (tt,
                         mk_server [(7%Z, mk_drawing_tablet 1%Z
                                           (mk_wlr_tablet 7%Z 100%float 50%float)
                                           0%float 0.75%float)]
                           (listeners_of 7%Z),
                         [notify (7%Z, h_axis);
                          cursor_emulate_move_absolute 1%Z 7%Z 0.25%float
                            (-0.125)%float 33%Z;
                          notify (8%Z, h_destroy)] ++ destroy_trace 8%Z))
    by reflexivity.
  split; [exact Hrun|].
  apply (run_keeps_record_identity float binary64 map_tip_to_left _ _ _ _ 7%Z
           (mk_drawing_tablet 1%Z (mk_wlr_tablet 7%Z 100%float 50%float)
              0%float 0.75%float) Hrun).
  reflexivity.
Defined.

(** X16: the cursor emulation is called at most once per axis, tip or
    button event of a run; proximity and destroy events never move the
    cursor or press a button. *)
Theorem run_emulation_calls_bounded :
  forall (F : Type) (D : Double F) (tablet_get_mapped_button : Z -> Z)
         (evs : list (tablet_config F * wlr_input_device * event F))
         (s s' : server F) (tr : list (effect F)),
    run tablet_get_mapped_button evs s = Some (tt, s', tr) ->
    (emulation_calls tr
     <= length (filter (fun i => is_pointer_event (snd i)) evs))%nat.
Proof.
  intros F D getb evs.
  induction evs as [|[[rc d] e] evs IH]; intros s s' tr Hrun.
  - cbn in Hrun. unfold ret in Hrun. injection Hrun as <- <-. cbn. lia.
  - cbn [run] in Hrun. unfold bind in Hrun.
    destruct (wl_signal_emit getb rc d e s) as [[[[] s1] t1]|] eqn:He;
      [|discriminate].
    destruct (run getb evs s1) as [[[[] s2] t2]|] eqn:Hr; [|discriminate].
    injection Hrun as <- <-.
    pose proof (wl_signal_emit_calls getb rc d e s s1 t1 He) as H1.
    pose proof (IH s1 s2 t2 Hr) as H2.
    rewrite emulation_calls_app. cbn [filter snd].
    destruct (is_pointer_event e); cbn [length]; lia.
Qed.

Lemma run_emulation_calls_bounded_witness :
  exists (s' : server float) (tr : list (effect float)),
    run map_tip_to_left sample_events two_tablet_server = Some (tt, s', tr)
    /\ (emulation_calls tr
        <= length (filter (fun i => is_pointer_event (snd i)) sample_events))%nat.
Proof.
  assert (Hrun : exists (s' : server float) (tr : list (effect float)),
             run map_tip_to_left sample_events two_tablet_server
             = Some (tt, s', tr))
    by (eexists; eexists; reflexivity).
  destruct Hrun as (s' & tr & Hrun).
  exists s', tr. split; [exact Hrun|].
  apply (run_emulation_calls_bounded float binary64 map_tip_to_left
           sample_events two_tablet_server s' tr Hrun).
Defined.

(** ** The proximity handler *)

(** X17: a proximity event changes no state and calls no cursor
    emulation; its only effect is one log line, written exactly when a
    mouse or lens tool enters proximity. *)
Theorem handle_proximity_spec :
  forall (F : Type) (D : Double F) (tablet_get_mapped_button : Z -> Z)
         (rc : tablet_config F) (s : server F) (dev : wlr_input_device)
         (ev : wlr_tablet_tool_proximity_event),
    exists tr : list (effect F),
      run_handler tablet_get_mapped_button rc dev (ev_proximity ev) s
      = Some (tt, s, tr)
      /\ emulation_calls tr = 0%nat
      /\ (((proximity_tool_type ev = WLR_TABLET_TOOL_TYPE_MOUSE
            \/ proximity_tool_type ev = WLR_TABLET_TOOL_TYPE_LENS)
           /\ proximity_state ev = WLR_TABLET_TOOL_PROXIMITY_IN)
          -> tr = [wlr_log log_ignoring_tool])
      /\ (~ ((proximity_tool_type ev = WLR_TABLET_TOOL_TYPE_MOUSE
              \/ proximity_tool_type ev = WLR_TABLET_TOOL_TYPE_LENS)
             /\ proximity_state ev = WLR_TABLET_TOOL_PROXIMITY_IN)
          -> tr = []).
Proof.
  intros F D getb rc s dev ev.
  exists (handle_proximity ev). split; [reflexivity|].
  unfold handle_proximity, tool_supports_absolute_motion.
  destruct (Z.eqb_spec (proximity_tool_type ev) WLR_TABLET_TOOL_TYPE_MOUSE)
    as [Hm|Hm];
    [|destruct (Z.eqb_spec (proximity_tool_type ev) WLR_TABLET_TOOL_TYPE_LENS)
        as [Hl|Hl]];
    cbn [negb]; destruct (proximity_state ev);
    (split; [reflexivity|]; split; [intros [Ht Hst] | intros Hn]);
    try reflexivity; try discriminate; try tauto.
Qed.

Lemma handle_proximity_spec_witness :
  run_handler map_tip_to_left sample_rc 7%Z
    (ev_proximity (mk_proximity_event WLR_TABLET_TOOL_TYPE_MOUSE
                     WLR_TABLET_TOOL_PROXIMITY_IN)) sample_server
  = Some (tt, sample_server, [wlr_log log_ignoring_tool])
  /\ run_handler map_tip_to_left sample_rc 7%Z
       (ev_proximity (mk_proximity_event WLR_TABLET_TOOL_TYPE_PEN
                        WLR_TABLET_TOOL_PROXIMITY_IN)) sample_server
     = Some (tt, sample_server, []).
Proof.
  split.
  - destruct (handle_proximity_spec float binary64 map_tip_to_left sample_rc
                sample_server 7%Z
                (mk_proximity_event WLR_TABLET_TOOL_TYPE_MOUSE
                   WLR_TABLET_TOOL_PROXIMITY_IN))
      as (tr & Hrun & _ & Hlog & _).
    rewrite Hrun, Hlog; [reflexivity|].
    split; [left; reflexivity|reflexivity].
  - destruct (handle_proximity_spec float binary64 map_tip_to_left sample_rc
                sample_server 7%Z
                (mk_proximity_event WLR_TABLET_TOOL_TYPE_PEN
                   WLR_TABLET_TOOL_PROXIMITY_IN))
      as (tr & Hrun & _ & _ & Hsilent).
    rewrite Hrun, Hsilent; [reflexivity|].
    intros [[Ht|Ht] _]; discriminate.
Defined.
